(** * Microservice control panel: the process supervisor

    A shallow embedding of the process-supervision code of
    [claude_v4.py] (module [V4]) and of its predecessor [claude_v3.py]
    (module [V3]): [MainWindow.start_service], [stop_service],
    [stop_all_services], [cleanup_all_processes], [closeEvent],
    [auto_start_services], and the signal set-up of [main].

    The Python methods mutate the window object and talk to the operating
    system; here they are computations in a small state-and-exception
    monad over a [world] that holds the window's fields, the process
    table of the operating system, and the chronological trace of
    everything the code did (system calls, log lines, prints). *)

From Stdlib Require Import ZArith String Ascii List Bool Lia.
From stdpp Require Import base decidable option list gmap strings fin_maps.
Import ListNotations.
Local Open Scope Z_scope.
Local Open Scope string_scope.
Local Open Scope list_scope.

(** ** Python values used by the supervisor *)

(** The signals the code names. *)
Inductive signal := SIGINT | SIGTERM | SIGKILL.

(** The exceptions that can reach the [except] clauses of the supervisor.
    All of them are subclasses of [Exception]. *)
Inductive exn :=
| TimeoutExpired          (* subprocess.TimeoutExpired *)
| ProcessLookupError      (* ESRCH *)
| PermissionError         (* EPERM / EACCES *)
| FileNotFoundError       (* ENOENT *)
| BlockingIOError         (* EAGAIN: fork failed, resources exhausted *)
| KeyError.

Definition is_TimeoutExpired (e : exn) : bool :=
  match e with TimeoutExpired => true | _ => false end.

#[global] Instance signal_eq_dec : EqDecision signal.
Proof. solve_decision. Defined.
#[global] Instance exn_eq_dec : EqDecision exn.
Proof. solve_decision. Defined.

(** ** [self.running_services]: a Python dict

    A dict keeps its keys in insertion order, and the sweeps iterate it in
    that order, so it is an association list with the dict operations.
    The value stored for a service is its [Popen] object, identified by
    the pid of the child. *)

Abbreviation pid := Z (only parsing).
Definition dict := list (string * pid).

Fixpoint dict_get (k : string) (d : dict) : option pid :=
  match d with
  | [] => None
  | (k', v) :: d' => if String.eqb k k' then Some v else dict_get k d'
  end.

(** [k in d] *)
Definition dict_mem (k : string) (d : dict) : bool :=
  match dict_get k d with Some _ => true | None => false end.

(** [d[k] = v]: an existing key keeps its position. *)
Fixpoint dict_set (k : string) (v : pid) (d : dict) : dict :=
  match d with
  | [] => [(k, v)]
  | (k', v') :: d' =>
      if String.eqb k k' then (k', v) :: d' else (k', v') :: dict_set k v d'
  end.

(** [del d[k]] *)
Fixpoint dict_del (k : string) (d : dict) : dict :=
  match d with
  | [] => []
  | (k', v') :: d' =>
      if String.eqb k k' then dict_del k d' else (k', v') :: dict_del k d'
  end.

Definition dict_keys (d : dict) : list string := map fst d.

(** ** The operating system: processes, groups and signals

    The supervisor sees the system through a handful of calls; what they
    answer is fixed by the process table and two oracles of the world.
    The assumptions are those of the design: a child gets a pid that was
    never used; a running child ends only by a signal; [SIGKILL] cannot
    be ignored; [SIGTERM] ends a child within any grace period unless
    the child ignores it or is too slow, which is a property of the
    child; a signal to a target that the host may not signal is refused
    as a whole ([PermissionError]) and is otherwise delivered to the
    process, or to every member of the group. *)

Inductive pstatus := Running | Exited.

#[global] Instance pstatus_eq_dec : EqDecision pstatus.
Proof. solve_decision. Defined.

(** One entry of the process table.  [p_ignores_term] says that the
    process does not exit within any grace period after [SIGTERM] (it
    ignores the signal or is too slow); [p_received] is the history of the
    signals that reached it while it was running. *)
Record proc := mkProc {
  p_pgid : Z;
  p_status : pstatus;
  p_ignores_term : bool;
  p_received : list signal
}.

(** What a signal does to a process: [SIGKILL] cannot be ignored, the
    others end the process unless it ignores them.  An exited process
    is not affected. *)
Definition deliver (sg : signal) (p : proc) : proc :=
  match p_status p with
  | Exited => p
  | Running =>
      {| p_pgid := p_pgid p;
         p_status := match sg with
                     | SIGKILL => Exited
                     | _ => if p_ignores_term p then Running else Exited
                     end;
         p_ignores_term := p_ignores_term p;
         p_received := p_received p ++ [sg] |}
  end.

Definition deliver_group (g : Z) (sg : signal) (p : proc) : proc :=
  if Z.eqb (p_pgid p) g then deliver sg p else p.

(** What [Popen] does for a given script name: it raises, or a child
    with the given reaction to [SIGTERM] comes to life. *)
Inductive spawn_outcome :=
| SpawnFails (e : exn)
| Spawns (ignores_term : bool).

(** ** Threads and the trace

    A Python call runs on the thread of its caller unless the code starts
    a thread for it ([start_thread] below) or the toolkit calls it from
    its event loop ([click]).  The world records the executing thread,
    and every event is stamped with it. *)

Inductive thread := GuiThread | WorkerThread (n : nat).

(** The texts handed to [log_status]. *)
Inductive log_msg :=
| MsgAlreadyRunning (name : string)        (* "Service {name} is already running" *)
| MsgStarted (name : string) (p : pid)     (* "Started {name} (PID: {pid})" *)
| MsgFailedStart (name : string) (e : exn) (* "Failed to start {name}: {e}" *)
| MsgNotRunning (name : string)            (* "Service {name} is not running" *)
| MsgStopped (name : string)               (* "Stopped {name}" *)
| MsgFailedStop (name : string) (e : exn). (* "Failed to stop {name}: {e}" *)

(** The texts handed to [print]. *)
Inductive print_msg :=
| PrCleaningUp                             (* "Cleaning up all processes..." *)
| PrTerminating (name : string)            (* "Terminating {name}..." *)
| PrForceKilling (name : string)           (* "Force killing {name}..." *)
| PrErrorStopping (name : string) (e : exn)(* "Error stopping {name}: {e}" *)
| PrAllCleanedUp                           (* "All processes cleaned up." *)
| PrReceivedSignal (sg : signal)           (* "Received signal {signum}. ..." *)
| PrKeyboardInterrupt.                     (* "Keyboard interrupt received. ..." *)

(** Everything the supervisor does that is visible from outside. *)
Inductive event :=
| EvPopen (name : string) (new_session : bool)  (* subprocess.Popen called *)
| EvKillpg (pgid : Z) (sg : signal)             (* os.killpg called *)
| EvKill (p : pid) (sg : signal)                (* os.kill called by terminate()/kill() *)
| EvWait (p : pid) (timeout : option Z)         (* process.wait called *)
| EvLog (m : log_msg)                           (* self.log_status *)
| EvStatus (name : string) (running : bool)     (* list item set to green / red *)
| EvPrint (m : print_msg).                      (* print *)

(** What the interpreter does when the hosting process receives a signal. *)
Inductive disposition :=
| SIG_DFL              (* the OS default: the process is terminated at once *)
| DefaultIntHandler    (* Python's initial SIGINT handler: KeyboardInterrupt *)
| PySignalHandler.     (* the module-level function signal_handler *)

(** Where the main thread is when a signal arrives.  CPython only
    notes a signal when it arrives; a handler written in Python is called
    by the main thread before it executes its next bytecode instruction.
    While [main] runs its statements that is at once; inside
    [app.exec_()] the thread is in the loop of the toolkit, which
    executes no bytecode until it calls a slot. *)
Inductive interp_state :=
| BeforeEventLoop    (* [main] is executing its statements before [app.exec_()] *)
| InEventLoop.       (* [main] is inside [app.exec_()], no slot is running *)

(** What the arrival of a signal has led to. *)
Inductive signal_effect :=
| Killed             (* default disposition: the kernel ended the process *)
| HandlerRan         (* [signal_handler] was called and ended the process *)
| Interrupted        (* [KeyboardInterrupt], caught nowhere: the interpreter ended *)
| HandlerPending.    (* noted by the interpreter; no Python code has run *)

(** ** The world *)

Record world := mkWorld {
  (* MainWindow fields *)
  running_services : dict;
  is_closing : bool;
  services_list : list string;     (* the UserRole data of the list items *)
  (* module and interpreter state *)
  main_window_instance : bool;     (* the global is not None *)
  atexit_registered : bool;        (* atexit.register(self.cleanup_all_processes) ran *)
  sigint_disp : disposition;
  sigterm_disp : disposition;
  host_alive : bool;               (* the control panel itself is still running *)
  cur_thread : thread;             (* the thread executing the code *)
  (* operating system *)
  has_setsid : bool;               (* hasattr(os, 'setsid') *)
  has_killpg : bool;               (* hasattr(os, 'killpg') *)
  host_pgid : Z;
  procs : gmap Z proc;
  next_pid : Z;
  spawn_oracle : string -> spawn_outcome;
  sig_denied : Z -> bool;          (* signalling this pid / pgid: EPERM *)
  (* history *)
  trace : list (thread * event)
}.

(** Field updates. *)
Definition set_running (d : dict) (w : world) : world :=
  mkWorld d (is_closing w) (services_list w) (main_window_instance w)
    (atexit_registered w) (sigint_disp w) (sigterm_disp w) (host_alive w)
    (cur_thread w) (has_setsid w) (has_killpg w) (host_pgid w) (procs w)
    (next_pid w) (spawn_oracle w) (sig_denied w) (trace w).

Definition set_closing (b : bool) (w : world) : world :=
  mkWorld (running_services w) b (services_list w) (main_window_instance w)
    (atexit_registered w) (sigint_disp w) (sigterm_disp w) (host_alive w)
    (cur_thread w) (has_setsid w) (has_killpg w) (host_pgid w) (procs w)
    (next_pid w) (spawn_oracle w) (sig_denied w) (trace w).

Definition set_services_list (l : list string) (w : world) : world :=
  mkWorld (running_services w) (is_closing w) l (main_window_instance w)
    (atexit_registered w) (sigint_disp w) (sigterm_disp w) (host_alive w)
    (cur_thread w) (has_setsid w) (has_killpg w) (host_pgid w) (procs w)
    (next_pid w) (spawn_oracle w) (sig_denied w) (trace w).

Definition set_atexit (b : bool) (w : world) : world :=
  mkWorld (running_services w) (is_closing w) (services_list w)
    (main_window_instance w) b (sigint_disp w) (sigterm_disp w) (host_alive w)
    (cur_thread w) (has_setsid w) (has_killpg w) (host_pgid w) (procs w)
    (next_pid w) (spawn_oracle w) (sig_denied w) (trace w).

Definition set_disp (sg : signal) (d : disposition) (w : world) : world :=
  mkWorld (running_services w) (is_closing w) (services_list w)
    (main_window_instance w) (atexit_registered w)
    (match sg with SIGINT => d | _ => sigint_disp w end)
    (match sg with SIGTERM => d | _ => sigterm_disp w end)
    (host_alive w)
    (cur_thread w) (has_setsid w) (has_killpg w) (host_pgid w) (procs w)
    (next_pid w) (spawn_oracle w) (sig_denied w) (trace w).

Definition set_host_alive (b : bool) (w : world) : world :=
  mkWorld (running_services w) (is_closing w) (services_list w)
    (main_window_instance w) (atexit_registered w) (sigint_disp w)
    (sigterm_disp w) b
    (cur_thread w) (has_setsid w) (has_killpg w) (host_pgid w) (procs w)
    (next_pid w) (spawn_oracle w) (sig_denied w) (trace w).

Definition set_cur_thread (t : thread) (w : world) : world :=
  mkWorld (running_services w) (is_closing w) (services_list w)
    (main_window_instance w) (atexit_registered w) (sigint_disp w)
    (sigterm_disp w) (host_alive w)
    t (has_setsid w) (has_killpg w) (host_pgid w) (procs w)
    (next_pid w) (spawn_oracle w) (sig_denied w) (trace w).

Definition set_procs (m : gmap Z proc) (n : Z) (w : world) : world :=
  mkWorld (running_services w) (is_closing w) (services_list w)
    (main_window_instance w) (atexit_registered w) (sigint_disp w)
    (sigterm_disp w) (host_alive w)
    (cur_thread w) (has_setsid w) (has_killpg w) (host_pgid w) m
    n (spawn_oracle w) (sig_denied w) (trace w).

Definition add_event (e : event) (w : world) : world :=
  mkWorld (running_services w) (is_closing w) (services_list w)
    (main_window_instance w) (atexit_registered w) (sigint_disp w)
    (sigterm_disp w) (host_alive w)
    (cur_thread w) (has_setsid w) (has_killpg w) (host_pgid w) (procs w)
    (next_pid w) (spawn_oracle w) (sig_denied w)
    (trace w ++ [(cur_thread w, e)]).

(** ** The monad: state, Python exceptions, and calls that never return *)

Inductive result (A : Type) :=
| Ok (a : A) (w : world)       (* the call returned *)
| Raise (e : exn) (w : world)  (* the call raised *)
| Hang (w : world).            (* the call blocks for ever *)
Arguments Ok {A} a w.
Arguments Raise {A} e w.
Arguments Hang {A} w.

Definition M (A : Type) := world -> result A.

Definition ret {A} (a : A) : M A := fun w => Ok a w.

Definition bind {A B} (c : M A) (k : A -> M B) : M B :=
  fun w => match c w with
           | Ok a w' => k a w'
           | Raise e w' => Raise e w'
           | Hang w' => Hang w'
           end.

Declare Scope py_scope.
Delimit Scope py_scope with py.
Notation "x <- c1 ;; c2" := (bind c1 (fun x => c2))
  (at level 100, c1 at next level, right associativity) : py_scope.
Notation "c1 ;; c2" := (bind c1 (fun _ => c2))
  (at level 100, right associativity) : py_scope.
Local Open Scope py_scope.

Definition raise {A} (e : exn) : M A := fun w => Raise e w.

(** [try: body / except Exception as e: handler e] *)
Definition try_except {A} (body : M A) (handler : exn -> M A) : M A :=
  fun w => match body w with
           | Raise e w' => handler e w'
           | r => r
           end.

(** [try: body / except subprocess.TimeoutExpired: handler] *)
Definition try_except_timeout {A} (body : M A) (handler : M A) : M A :=
  try_except body (fun e => if is_TimeoutExpired e then handler else raise e).

Definition gets {A} (f : world -> A) : M A := fun w => Ok (f w) w.
Definition modify (f : world -> world) : M unit := fun w => Ok tt (f w).
Definition emit (e : event) : M unit := modify (add_event e).

(** [for x in l: body x] *)
Fixpoint for_each {A} (l : list A) (body : A -> M unit) : M unit :=
  match l with
  | [] => ret tt
  | x :: l' => body x ;; for_each l' body
  end.

Definition world_of {A} (r : result A) : world :=
  match r with Ok _ w | Raise _ w | Hang w => w end.

(** ** Threads

    [QThread.start()] (and [threading.Thread.start()]): a new thread
    executes [run]; the thread that called [start] goes on, whether [run]
    returns, raises or blocks.  The body is run to its end at the point
    where the thread is started: the model tells which thread executes
    which call, not how the threads interleave.  In both versions the
    only call of this kind is [self.config_loader.start()]. *)
Definition start_thread (n : nat) (run : M unit) : M unit :=
  fun w => Ok tt (set_cur_thread (cur_thread w)
                    (world_of (run (set_cur_thread (WorkerThread n) w)))).

(** A click on a button: the event loop of the toolkit, which runs on
    the thread of the user interface, calls the slot that [setup_ui]
    connected to the [clicked] signal of the button. *)
Definition click (slot : M unit) : M unit :=
  modify (set_cur_thread GuiThread) ;; slot.

(** ** Library calls: [os], [subprocess.Popen], [print]

    Each call that reaches the operating system first records itself in
    the trace, then succeeds, raises or blocks as the process table and
    the two oracles of the world say: [spawn_oracle] for what [Popen]
    does, [sig_denied] for the targets the host may not signal. *)

(** [subprocess.Popen([sys.executable, name], ...)]; [new_session] says
    that [preexec_fn] is [os.setsid], which makes the child the leader of
    a new session and process group. *)
Definition Popen (name : string) (new_session : bool) : M pid :=
  emit (EvPopen name new_session) ;;
  oracle <- gets spawn_oracle ;;
  match oracle name with
  | SpawnFails e => raise e
  | Spawns ign =>
      n <- gets next_pid ;;
      g <- gets host_pgid ;;
      ps <- gets procs ;;
      modify (set_procs
                (<[n := mkProc (if new_session then n else g) Running ign []]> ps)
                (n + 1)) ;;
      ret n
  end.

(** [os.getpgid(pid)] *)
Definition getpgid (p : pid) : M Z :=
  ps <- gets procs ;;
  match ps !! p with
  | Some pr => ret (p_pgid pr)
  | None => raise ProcessLookupError
  end.

Definition group_nonempty (g : Z) (ps : gmap Z proc) : bool :=
  bool_decide (map_Exists (fun _ pr => p_pgid pr = g) ps).

(** [os.killpg(pgid, sig)]: the signal goes to every member of the group. *)
Definition killpg (g : Z) (sg : signal) : M unit :=
  emit (EvKillpg g sg) ;;
  denied <- gets sig_denied ;;
  if denied g then raise PermissionError
  else
    ps <- gets procs ;;
    if group_nonempty g ps
    then n <- gets next_pid ;; modify (set_procs (deliver_group g sg <$> ps) n)
    else raise ProcessLookupError.

(** [os.kill(pid, sig)] *)
Definition os_kill (p : pid) (sg : signal) : M unit :=
  emit (EvKill p sg) ;;
  denied <- gets sig_denied ;;
  if denied p then raise PermissionError
  else
    ps <- gets procs ;;
    match ps !! p with
    | Some pr => n <- gets next_pid ;; modify (set_procs (<[p := deliver sg pr]> ps) n)
    | None => raise ProcessLookupError
    end.

(** [process.poll() is None]: the child has not exited. *)
Definition poll_is_None (p : pid) : M bool :=
  ps <- gets procs ;;
  ret (match ps !! p with
       | Some pr => bool_decide (p_status pr = Running)
       | None => false
       end).

(** [Popen.send_signal], as of Python 3.9: nothing is sent to a child
    that has exited, and a child that vanishes in between is not an
    error. *)
Definition send_signal (p : pid) (sg : signal) : M unit :=
  alive <- poll_is_None p ;;
  if alive
  then try_except (os_kill p sg)
         (fun e => match e with ProcessLookupError => ret tt | _ => raise e end)
  else ret tt.

(** [process.terminate()] and [process.kill()] *)
Definition terminate (p : pid) : M unit := send_signal p SIGTERM.
Definition kill (p : pid) : M unit := send_signal p SIGKILL.

(** [process.wait(timeout=t)] and [process.wait()] ([timeout = None]):
    a running child makes the bounded wait raise and the unbounded wait
    block. *)
Definition wait (p : pid) (timeout : option Z) : M unit :=
  emit (EvWait p timeout) ;;
  alive <- poll_is_None p ;;
  if alive
  then match timeout with
       | Some _ => raise TimeoutExpired
       | None => Hang
       end
  else ret tt.

Definition print (m : print_msg) : M unit := emit (EvPrint m).

(** ** Configuration strings

    [config_data.get(key, '').split(',')] followed by
    [[ms.strip() for ms in ... if ms.strip()]]. *)

(** [str.isspace] on one character (code points below 256). *)
Definition is_space (c : ascii) : bool :=
  let n := nat_of_ascii c in
  ((9 <=? n) && (n <=? 13) || (28 <=? n) && (n <=? 32)
   || (n =? 133) || (n =? 160))%nat.

Fixpoint lstrip (s : string) : string :=
  match s with
  | String c s' => if is_space c then lstrip s' else s
  | EmptyString => EmptyString
  end.

Fixpoint rstrip (s : string) : string :=
  match s with
  | EmptyString => EmptyString
  | String c s' =>
      match rstrip s' with
      | EmptyString => if is_space c then EmptyString else String c EmptyString
      | r => String c r
      end
  end.

Definition strip (s : string) : string := rstrip (lstrip s).

(** [s.split(',')]: the pieces between commas, at least one piece. *)
Fixpoint split_comma (s : string) : list string :=
  match s with
  | EmptyString => [EmptyString]
  | String c s' =>
      if Ascii.eqb c ","%char then EmptyString :: split_comma s'
      else match split_comma s' with
           | piece :: rest => String c piece :: rest
           | [] => [String c EmptyString]
           end
  end.

Definition nonempty (s : string) : bool :=
  match s with EmptyString => false | _ => true end.

Definition config := gmap string string.

(** [config_data.get(key, '')] *)
Definition config_get (cfg : config) (key : string) : string :=
  default EmptyString (cfg !! key).

Definition parse_names (s : string) : list string :=
  map strip (List.filter (fun ms => nonempty (strip ms)) (split_comma s)).

Fixpoint mem_string (k : string) (l : list string) : bool :=
  match l with
  | [] => false
  | k' :: l' => String.eqb k k' || mem_string k l'
  end.

(** ** [MainWindow] helpers shared by both versions *)

Definition log_status (m : log_msg) : M unit := emit (EvLog m).

(** [update_service_status]: the first list item whose data is the name
    gets the new marker; without such an item nothing happens. *)
Definition update_service_status (name : string) (is_running : bool) : M unit :=
  items <- gets services_list ;;
  if mem_string name items then emit (EvStatus name is_running) else ret tt.

(** [del self.running_services[name]] *)
Definition del_running_service (name : string) : M unit :=
  rs <- gets running_services ;;
  if dict_mem name rs
  then modify (set_running (dict_del name rs))
  else raise KeyError.

(** [load_microservices] *)
Definition load_microservices (cfg : config) : M unit :=
  items <- gets services_list ;;
  modify (set_services_list (items ++ parse_names (config_get cfg "microservices"))).

(** ** claude_v4.py *)

Module V4.

(** [MainWindow.start_service] *)
Definition start_service (service_name : string) : M unit :=
  rs <- gets running_services ;;
  if dict_mem service_name rs
  then log_status (MsgAlreadyRunning service_name)
  else
    try_except
      (setsid <- gets has_setsid ;;
       process <- Popen service_name setsid ;;
       rs' <- gets running_services ;;
       modify (set_running (dict_set service_name process rs')) ;;
       update_service_status service_name true ;;
       log_status (MsgStarted service_name process))
      (fun e => log_status (MsgFailedStart service_name e)).

(** The world after a successful [start_service]: the child [next_pid w]
    exists, is registered under the name, and two or three events were
    added. *)
Definition started (name : string) (ign : bool) (w : world) : world :=
  let p := next_pid w in
  let w1 := add_event (EvPopen name (has_setsid w)) w in
  let w2 := set_procs
              (<[p := mkProc (if has_setsid w then p else host_pgid w)
                        Running ign []]> (procs w))
              (p + 1) w1 in
  let w3 := set_running (dict_set name p (running_services w)) w2 in
  let w4 := if mem_string name (services_list w)
            then add_event (EvStatus name true) w3 else w3 in
  add_event (EvLog (MsgStarted name p)) w4.

(** [MainWindow.stop_service] *)
Definition stop_service (service_name : string) : M unit :=
  rs <- gets running_services ;;
  if negb (dict_mem service_name rs)
  then log_status (MsgNotRunning service_name)
  else
    try_except
      (rs0 <- gets running_services ;;
       process <- match dict_get service_name rs0 with
                  | Some p => ret p
                  | None => raise KeyError
                  end ;;
       (* Try graceful termination first *)
       killpg_available <- gets has_killpg ;;
       (if killpg_available
        then g <- getpgid process ;; killpg g SIGTERM
        else terminate process) ;;
       (* Wait for process to terminate *)
       try_except_timeout
         (wait process (Some 5))
         ((* Force kill if it doesn't terminate gracefully *)
          killpg_available' <- gets has_killpg ;;
          (if killpg_available'
           then g <- getpgid process ;; killpg g SIGKILL
           else kill process) ;;
          wait process None) ;;
       del_running_service service_name ;;
       update_service_status service_name false ;;
       log_status (MsgStopped service_name))
      (fun e =>
         log_status (MsgFailedStop service_name e) ;;
         (* Remove from tracking even if stop failed *)
         rs2 <- gets running_services ;;
         if dict_mem service_name rs2
         then del_running_service service_name
         else ret tt).

(** The world after the statements that follow the waits in
    [stop_service]: the entry is deleted, the list item turns red, the
    stop is logged. *)
Definition stopped (name : string) (w : world) : world :=
  let w1 := set_running (dict_del name (running_services w)) w in
  let w2 := if mem_string name (services_list w)
            then add_event (EvStatus name false) w1 else w1 in
  add_event (EvLog (MsgStopped name)) w2.

(** The body of the loop of [cleanup_all_processes]. *)
Definition cleanup_one (item : string * pid) : M unit :=
  let '(service_name, process) := item in
  try_except
    (alive <- poll_is_None process ;;
     if alive
     then
       print (PrTerminating service_name) ;;
       terminate process ;;
       try_except_timeout
         (wait process (Some 3))
         (print (PrForceKilling service_name) ;;
          kill process ;;
          wait process None)
     else ret tt)
    (fun e => print (PrErrorStopping service_name e)).

(** [MainWindow.cleanup_all_processes] *)
Definition cleanup_all_processes : M unit :=
  closing <- gets is_closing ;;
  if closing then ret tt
  else
    modify (set_closing true) ;;
    print PrCleaningUp ;;
    items <- gets running_services ;;
    for_each items cleanup_one ;;
    modify (set_running []) ;;
    print PrAllCleanedUp.

(** [MainWindow.auto_start_services] *)
Definition auto_start_services (cfg : config) : M unit :=
  for_each (parse_names (config_get cfg "auto_start")) start_service.

(** [MainWindow.__init__]: the fields, the exit hook, then [setup_ui],
    which creates the (still empty) list widget and ends with the
    auto-start sweep, then [load_microservices]. *)
Definition MainWindow_init (cfg : config) : M unit :=
  modify (set_running []) ;;
  modify (set_closing false) ;;
  modify (set_atexit true) ;;
  modify (set_services_list []) ;;
  auto_start_services cfg ;;
  load_microservices cfg.

(** [start_selected_service] / [stop_selected_service]; the argument is
    the data of [self.services_list.currentItem()], if there is one. *)
Definition start_selected_service (current_item : option string) : M unit :=
  match current_item with
  | Some service_name => start_service service_name
  | None => ret tt
  end.

Definition stop_selected_service (current_item : option string) : M unit :=
  match current_item with
  | Some service_name => stop_service service_name
  | None => ret tt
  end.

(** [MainWindow.start_all_services] *)
Definition start_all_services : M unit :=
  items <- gets services_list ;;
  for_each items start_service.

(** [MainWindow.stop_all_services] *)
Definition stop_all_services : M unit :=
  closing <- gets is_closing ;;
  if closing then ret tt
  else
    service_names <- gets (fun w => dict_keys (running_services w)) ;;
    for_each service_names stop_service.

(** [MainWindow.closeEvent] *)
Definition closeEvent : M unit :=
  closing <- gets is_closing ;;
  if negb closing then cleanup_all_processes else ret tt.

(** [sys.exit(0)]: the interpreter runs the exit hooks and ends. *)
Definition sys_exit : M unit :=
  hook <- gets atexit_registered ;;
  (if hook then cleanup_all_processes else ret tt) ;;
  modify (set_host_alive false).

(** The module-level [signal_handler(signum, frame)];
    [QApplication.quit()] only posts an event and is left out. *)
Definition signal_handler (signum : signal) : M unit :=
  print (PrReceivedSignal signum) ;;
  inst <- gets main_window_instance ;;
  (if inst then cleanup_all_processes else ret tt) ;;
  sys_exit.

(** The first statements of [main]: three calls of [signal.signal]. *)
Definition main_install_handlers : M unit :=
  modify (set_disp SIGINT PySignalHandler) ;;
  modify (set_disp SIGTERM PySignalHandler) ;;
  modify (set_disp SIGINT SIG_DFL).

(** The hosting process receives [signum].  With the default
    disposition the kernel ends the process at once: no Python code
    runs, neither handlers nor exit hooks.  A handler written in Python
    is called when the main thread next executes bytecode: at once while
    [main] runs its own statements, not at all while it sits in
    [app.exec_()].  Python's initial SIGINT handler raises
    [KeyboardInterrupt] in the same way; [main] catches it around
    [app.exec_()] only, so before that the exception ends the
    interpreter, which runs the exit hooks. *)
Definition receive_signal (st : interp_state) (signum : signal)
    : M signal_effect :=
  d <- gets (fun w => match signum with
                      | SIGINT => sigint_disp w
                      | SIGTERM => sigterm_disp w
                      | SIGKILL => SIG_DFL
                      end) ;;
  match d, st with
  | SIG_DFL, _ => modify (set_host_alive false) ;; ret Killed
  | _, InEventLoop => ret HandlerPending
  | PySignalHandler, BeforeEventLoop => signal_handler signum ;; ret HandlerRan
  | DefaultIntHandler, BeforeEventLoop => sys_exit ;; ret Interrupted
  end.

End V4.

(** ** claude_v3.py *)

Module V3.

(** [MainWindow.start_service] *)
Definition start_service (service_name : string) : M unit :=
  rs <- gets running_services ;;
  if dict_mem service_name rs
  then log_status (MsgAlreadyRunning service_name)
  else
    try_except
      (process <- Popen service_name false ;;
       rs' <- gets running_services ;;
       modify (set_running (dict_set service_name process rs')) ;;
       update_service_status service_name true ;;
       log_status (MsgStarted service_name process))
      (fun e => log_status (MsgFailedStart service_name e)).

(** [MainWindow.stop_service] *)
Definition stop_service (service_name : string) : M unit :=
  rs <- gets running_services ;;
  if negb (dict_mem service_name rs)
  then log_status (MsgNotRunning service_name)
  else
    try_except
      (rs0 <- gets running_services ;;
       process <- match dict_get service_name rs0 with
                  | Some p => ret p
                  | None => raise KeyError
                  end ;;
       terminate process ;;
       wait process (Some 5) ;;
       del_running_service service_name ;;
       update_service_status service_name false ;;
       log_status (MsgStopped service_name))
      (fun e => log_status (MsgFailedStop service_name e)).

(** [MainWindow.stop_all_services] *)
Definition stop_all_services : M unit :=
  service_names <- gets (fun w => dict_keys (running_services w)) ;;
  for_each service_names stop_service.

(** [MainWindow.closeEvent] *)
Definition closeEvent : M unit := stop_all_services.

End V3.

(** ** Example worlds *)

(** A Unix session right after the interpreter started: nothing
    registered, no children, Python's initial signal dispositions. *)
Definition unix_world (oracle : string -> spawn_outcome)
    (denied : Z -> bool) : world :=
  {| running_services := [];
     is_closing := false;
     services_list := [];
     main_window_instance := false;
     atexit_registered := false;
     sigint_disp := DefaultIntHandler;
     sigterm_disp := SIG_DFL;
     host_alive := true;
     cur_thread := GuiThread;
     has_setsid := true;
     has_killpg := true;
     host_pgid := 1;
     procs := ∅;
     next_pid := 100;
     spawn_oracle := oracle;
     sig_denied := denied;
     trace := [] |}.

(** The same on a platform without [os.setsid] and [os.killpg]. *)
Definition windows_world (oracle : string -> spawn_outcome)
    (denied : Z -> bool) : world :=
  {| running_services := [];
     is_closing := false;
     services_list := [];
     main_window_instance := false;
     atexit_registered := false;
     sigint_disp := DefaultIntHandler;
     sigterm_disp := SIG_DFL;
     host_alive := true;
     cur_thread := GuiThread;
     has_setsid := false;
     has_killpg := false;
     host_pgid := 1;
     procs := ∅;
     next_pid := 100;
     spawn_oracle := oracle;
     sig_denied := denied;
     trace := [] |}.

Definition polite : string -> spawn_outcome := fun _ => Spawns false.
Definition stubborn : string -> spawn_outcome := fun _ => Spawns true.
Definition permitted : Z -> bool := fun _ => false.
Definition denied_for (target : Z) : Z -> bool := fun x => Z.eqb x target.

(** The child [p] exists and has not exited. *)
Definition proc_running (w : world) (p : pid) : bool :=
  match procs w !! p with
  | Some pr => bool_decide (p_status pr = Running)
  | None => false
  end.

(** The events of the trace, without the threads. *)
Definition events (w : world) : list event := map snd (trace w).

(** A running child forks: the new process inherits the process group
    of its parent.  This is a step of the environment, not of the
    supervisor, and leaves no entry in the trace. *)
Definition os_fork (parent : pid) (ignores_term : bool) : M pid :=
  ps <- gets procs ;;
  match ps !! parent with
  | Some pr =>
      n <- gets next_pid ;;
      modify (set_procs (<[n := mkProc (p_pgid pr) Running ignores_term []]> ps)
                (n + 1)) ;;
      ret n
  | None => raise ProcessLookupError
  end.

(** The signals that reached a process so far. *)
Definition received (w : world) (p : pid) : list signal :=
  match procs w !! p with
  | Some pr => p_received pr
  | None => []
  end.

(** What was appended to the trace between [w] and [w']. *)
Definition new_trace (w w' : world) : list (thread * event) :=
  drop (length (trace w)) (trace w').



Definition is_blocking (e : event) : bool :=
  match e with EvWait _ _ => true | _ => false end.

Definition is_sweep_start (e : event) : bool :=
  match e with EvPrint PrCleaningUp => true | _ => false end.

(** The service a [log_status] line is about. *)
Definition log_subject (e : event) : option string :=
  match e with
  | EvLog (MsgAlreadyRunning n) | EvLog (MsgStarted n _)
  | EvLog (MsgFailedStart n _) | EvLog (MsgNotRunning n)
  | EvLog (MsgStopped n) | EvLog (MsgFailedStop n _) => Some n
  | _ => None
  end.

(** A configuration whose auto-start list names a script that is not
    among the microservices. *)
Definition stray_config : config :=
  <["auto_start" := "x.py"]> (<["microservices" := "a.py"]> ∅).

(** A configuration with one microservice, started automatically. *)
Definition one_service_config : config :=
  <["auto_start" := "a.py"]> (<["microservices" := "a.py"]> ∅).

(** ** Names for the pieces of [V4.stop_service]

    The two platform branches of [V4.stop_service] differ in the signal
    only, and its [except] clause and the statements after the waits are
    used in several proofs; the following names stand for them. *)

Definition signal_service (process : pid) (sg : signal) : M unit :=
  killpg_available <- gets has_killpg ;;
  if killpg_available
  then g <- getpgid process ;; killpg g sg
  else send_signal process sg.

Definition stop_signals (process : pid) : M unit :=
  signal_service process SIGTERM ;;
  try_except_timeout
    (wait process (Some 5))
    (signal_service process SIGKILL ;; wait process None).

Definition stop_epilogue (service_name : string) : M unit :=
  del_running_service service_name ;;
  update_service_status service_name false ;;
  log_status (MsgStopped service_name).

Definition stop_handler (service_name : string) (e : exn) : M unit :=
  log_status (MsgFailedStop service_name e) ;;
  rs2 <- gets running_services ;;
  if dict_mem service_name rs2
  then del_running_service service_name
  else ret tt.

(** The exception with which the graceful signal of [V4.stop_service]
    fails in world [w] for the child [p], if it fails: the child is
    unknown to the system where its group is asked for, or the host may
    not signal the target. *)
Definition signal_failure (w : world) (p : pid) : option exn :=
  if has_killpg w
  then match procs w !! p with
       | None => Some ProcessLookupError
       | Some pr => if sig_denied w (p_pgid pr) then Some PermissionError else None
       end
  else match procs w !! p with
       | Some pr => if bool_decide (p_status pr = Running) && sig_denied w p
                    then Some PermissionError else None
       | None => None
       end.

(** The system call by which [V4.stop_service] sends [sg] to the child
    [p], if it gets as far as making one. *)
Definition signal_attempt (w : world) (p : pid) (sg : signal) : list event :=
  if has_killpg w
  then match procs w !! p with
       | Some pr => [EvKillpg (p_pgid pr) sg]
       | None => []
       end
  else match procs w !! p with
       | Some pr => if bool_decide (p_status pr = Running) then [EvKill p sg] else []
       | None => []
       end.

(** [emitted w w' es]: between [w] and [w'] exactly the events [es] were
    added to the trace, all by the thread that executes the code. *)
Definition emitted (w w' : world) (es : list event) : Prop :=
  trace w' = trace w ++ map (pair (cur_thread w)) es
  /\ cur_thread w' = cur_thread w.

(** ** Sessions: what can happen to a window *)

(** The entry points of the window and of the module that touch the
    supervisor, as the toolkit, the interpreter or the user trigger them. *)
Inductive action :=
| ActStart (name : string)                  (* start_service *)
| ActStop (name : string)                   (* stop_service *)
| ActStartSelected (item : option string)   (* the Start button *)
| ActStopSelected (item : option string)    (* the Stop button *)
| ActStartAll                               (* the Start All button *)
| ActStopAll                                (* the Stop All button *)
| ActClose                                  (* the window is closed *)
| ActExitHook                               (* the atexit hook runs *)
| ActSignalHandler (sg : signal).           (* signal_handler is called *)

Definition perform (a : action) : M unit :=
  match a with
  | ActStart name => V4.start_service name
  | ActStop name => V4.stop_service name
  | ActStartSelected item => V4.start_selected_service item
  | ActStopSelected item => V4.stop_selected_service item
  | ActStartAll => V4.start_all_services
  | ActStopAll => V4.stop_all_services
  | ActClose => V4.closeEvent
  | ActExitHook => V4.cleanup_all_processes
  | ActSignalHandler sg => V4.signal_handler sg
  end.

Definition session (acts : list action) : M unit := for_each acts perform.

(** The lifecycle operations among them. *)
Definition is_lifecycle (a : action) : bool :=
  match a with
  | ActStart _ | ActStop _ | ActStartSelected _ | ActStopSelected _
  | ActStartAll | ActStopAll => true
  | _ => false
  end.

(** The handlers that [setup_ui] connects to the four buttons. *)
Definition is_button (a : action) : bool :=
  match a with
  | ActStartSelected _ | ActStopSelected _ | ActStartAll | ActStopAll => true
  | _ => false
  end.

(** The calls that are meant to stop everything. *)
Definition is_shutdown_call (a : action) : bool :=
  match a with
  | ActStopAll | ActClose | ActExitHook => true
  | _ => false
  end.

(** How often the teardown sweep of [cleanup_all_processes] was begun. *)
Definition sweeps (t : list (thread * event)) : nat :=
  length (List.filter is_sweep_start (map snd t)).

(** [quiet w w']: the closing flag is the same and no teardown sweep
    was begun. *)
Definition quiet (w w' : world) : Prop :=
  is_closing w' = is_closing w /\ sweeps (trace w') = sweeps (trace w).

(** [on_caller_thread w w']: whatever was added to the trace was done by
    the thread that was executing in [w], which is still executing. *)
Definition on_caller_thread (w w' : world) : Prop :=
  exists es, emitted w w' es.

(** Off the user-interface thread: when the operation is called on the
    thread that serves the user interface, none of its blocking waits is
    executed by that thread. *)
Definition off_gui_thread (op : M unit) : Prop :=
  forall w th e,
    cur_thread w = GuiThread ->
    In (th, e) (new_trace w (world_of (op w))) ->
    is_blocking e = true ->
    th <> GuiThread.


(** A sweep is in the trace only if the flag is set, and then only one. *)
Definition sweeps_ok (w : world) : Prop :=
  (sweeps (trace w) <= (if is_closing w then 1 else 0))%nat.

Definition keeps_sweeps_ok (w w' : world) : Prop := sweeps_ok w -> sweeps_ok w'.

(** ** The statements under study, as predicates on the code

    Each is written once, for any implementation of the operations it
    mentions, so that the same statement can be asked of both versions. *)





(** Failing signals: when the graceful signal raises [e], a stop that
    fails because the child is gone counts as a success, a child that is
    still alive keeps its entry and the failure is logged, and an entry
    is removed only if the child is not alive any more. *)
Definition keeps_unkillable (stop : string -> M unit) : Prop :=
  forall w name p e,
    dict_get name (running_services w) = Some p ->
    signal_failure w p = Some e ->
    exists w' es,
      stop name w = Ok tt w'
      /\ emitted w w' es
      /\ (e = ProcessLookupError ->
          dict_mem name (running_services w') = false
          /\ In (EvLog (MsgStopped name)) es)
      /\ (proc_running w' p = true ->
          dict_get name (running_services w') = Some p
          /\ In (EvLog (MsgFailedStop name e)) es)
      /\ (dict_mem name (running_services w') = false ->
          proc_running w' p = false).

(** Starting a registered service: reported as already running, no
    process is spawned, and the record is untouched: the same registry,
    the same process table. *)
Definition rejects_second_start (start : string -> M unit) : Prop :=
  forall w name p,
    dict_get name (running_services w) = Some p ->
    exists w',
      start name w = Ok tt w'
      /\ emitted w w' [EvLog (MsgAlreadyRunning name)]
      /\ running_services w' = running_services w
      /\ procs w' = procs w
      /\ next_pid w' = next_pid w.

(** Group-directed signals, in world [w]: an unregistered service that
    can be spawned is started as the leader of a new process group; if
    the child then forks, stopping the service sends the graceful signal
    to the child and to the forked process, and for a child that
    outlasts the grace period the forceful signal reaches the child and
    leaves no forked process running. *)
Definition group_directed_at (start stop : string -> M unit) (w : world) : Prop :=
  forall name ign ign',
    dict_mem name (running_services w) = false ->
    spawn_oracle w name = Spawns ign ->
    sig_denied w (next_pid w) = false ->
    exists w1 w2 w3 q,
      let p := next_pid w in
      start name w = Ok tt w1
      /\ dict_get name (running_services w1) = Some p
      /\ (exists pr, procs w1 !! p = Some pr /\ p_pgid pr = p)
      /\ os_fork p ign' w1 = Ok q w2
      /\ stop name w2 = Ok tt w3
      /\ In SIGTERM (received w3 p)
      /\ In SIGTERM (received w3 q)
      /\ (ign = true ->
          In SIGKILL (received w3 p) /\ proc_running w3 q = false).

(** The auto-start sweep with a membership check: where every script can
    be spawned, session start leaves exactly those names registered that
    are both in the auto-start list and in the descriptor list. *)
Definition auto_start_checks_descriptors (init : config -> M unit) : Prop :=
  forall w cfg,
    (forall n, exists ign, spawn_oracle w n = Spawns ign) ->
    exists w',
      init cfg w = Ok tt w'
      /\ forall n,
          dict_mem n (running_services w') = true
          <-> In n (parse_names (config_get cfg "auto_start"))
              /\ In n (parse_names (config_get cfg "microservices")).

(** ** Further vocabulary for the properties of the code *)

(** [emits_only Q w w']: what was added to the trace between [w] and
    [w'] was done by the executing thread and consists of events that
    satisfy [Q]. *)
Definition emits_only (Q : event -> bool) (w w' : world) : Prop :=
  exists es, emitted w w' es /\ forallb Q es = true.

(** A signal sent to a whole process group. *)
Definition is_group_signal (e : event) : bool :=
  match e with EvKillpg _ _ => true | _ => false end.

(** A forceful signal, to a process or to a group. *)
Definition is_forceful_signal (e : event) : bool :=
  match e with
  | EvKillpg _ SIGKILL | EvKill _ SIGKILL => true
  | _ => false
  end.

(** A change of the marker of a list item. *)
Definition is_status_update (e : event) : bool :=
  match e with EvStatus _ _ => true | _ => false end.

(** The registry after the entries of all the [names] were deleted. *)
Definition dict_del_all (names : list string) (d : dict) : dict :=
  fold_left (fun d' k => dict_del k d') names d.

(** A list of names written as a configuration value, the way the rows
    of [connect_postgres] are: the names separated by commas. *)
Definition join_comma (names : list string) : string := String.concat "," names.

(** A string without a comma. *)
Fixpoint comma_free (s : string) : bool :=
  match s with
  | EmptyString => true
  | String c s' => negb (Ascii.eqb c ","%char) && comma_free s'
  end.

(** A name as the parser returns it: not empty, no comma, no white space
    at either end. *)
Definition clean_name (s : string) : bool :=
  nonempty s && comma_free s && String.eqb (strip s) s.

(** A graceful signal to one process is the only kind of signal. *)
Definition gentle (e : event) : bool :=
  negb (is_forceful_signal e) && negb (is_group_signal e).

(** The text of a [log_status] line. *)
Definition log_of (e : event) : option log_msg :=
  match e with EvLog m => Some m | _ => None end.

(** A call of [subprocess.Popen]. *)
Definition is_spawn (e : event) : bool :=
  match e with EvPopen _ _ => true | _ => false end.

(** The registry and the process table fit together: every registered
    child is in the process table, every process has a pid below the next
    one to be given out, and no two names share a child. *)
Definition registry_ok (w : world) : Prop :=
  (forall n p, dict_get n (running_services w) = Some p -> is_Some (procs w !! p))
  /\ (forall p, is_Some (procs w !! p) -> p < next_pid w)
  /\ (forall n1 n2 p,
        dict_get n1 (running_services w) = Some p ->
        dict_get n2 (running_services w) = Some p -> n1 = n2).

Definition keeps_registry_ok (w w' : world) : Prop :=
  registry_ok w -> registry_ok w'.

(** [same_table w w']: the same processes exist, and the next pid is the
    same. *)
Definition same_table (w w' : world) : Prop :=
  next_pid w' = next_pid w
  /\ forall p, is_Some (procs w' !! p) <-> is_Some (procs w !! p).

(** ** [ConfigLoader]: the files of the microservices and the loading run

    [validate_microservices] looks at the file system and creates a
    dummy script for every configured microservice that has no file.  The
    file system is a finite map from paths to contents; [open_error] says
    for which paths [open(path, 'w')] raises. *)

Inductive file_content :=
| DummyService (service : string)   (* the script written by the loader *)
| UserFile (text : string).         (* anything else *)

Inductive validation_print :=
| PrMissingFiles (missing : list string)   (* "Missing microservice files: ..." *)
| PrValidationError (e : exn).             (* "Microservice validation error: ..." *)

(** [os.path.exists(path)] *)
Definition path_exists (fs : gmap string file_content) (path : string) : bool :=
  bool_decide (is_Some (fs !! path)).

(** The first loop of [validate_microservices]. *)
Definition missing_files (fs : gmap string file_content)
    (microservices : list string) : list string :=
  List.filter (fun service => negb (path_exists fs service)) microservices.

(** The second loop: [with open(service, 'w') as f: f.write(...)] for
    each missing file, until one cannot be opened. *)
Fixpoint write_dummy_files (open_error : string -> option exn)
    (missing : list string) (fs : gmap string file_content)
    : option exn * gmap string file_content :=
  match missing with
  | [] => (None, fs)
  | service :: rest =>
      match open_error service with
      | Some e => (Some e, fs)
      | None => write_dummy_files open_error rest (<[service := DummyService service]> fs)
      end
  end.

(** [ConfigLoader.validate_microservices]: the result, the file system
    afterwards, and what was printed. *)
Definition validate_microservices (open_error : string -> option exn)
    (cfg : config) (fs : gmap string file_content)
    : bool * gmap string file_content * list validation_print :=
  let microservices := parse_names (config_get cfg "microservices") in
  let missing := missing_files fs microservices in
  match missing with
  | [] => (true, fs, [])
  | _ :: _ =>
      match write_dummy_files open_error missing fs with
      | (None, fs') => (true, fs', [PrMissingFiles missing])
      | (Some e, fs') =>
          (false, fs', [PrMissingFiles missing; PrValidationError e])
      end
  end.

(** [ConfigLoader.load_config_from_db]: the rows of the query, or [None]
    when the query raises; a later row with the same key wins. *)
Definition load_config_from_db (rows : option (list (string * string)))
    : option config :=
  match rows with
  | Some rs => Some (fold_left (fun c kv => <[kv.1 := kv.2]> c) rs ∅)
  | None => None
  end.

(** What the loader of claude_v3.py emits and does to its connection. *)
Inductive loader_msg :=
| MsgConnecting            (* "Connecting to PostgreSQL..." *)
| MsgLoading               (* "Loading configuration from database..." *)
| MsgValidating            (* "Validating microservices..." *)
| MsgInitializing          (* "Initializing microservices..." *)
| MsgConnectionFailed      (* "PostgreSQL connection failed" *)
| MsgLoadFailed            (* "Failed to load configuration" *)
| MsgFilesMissing          (* "Some microservice files are missing" *)
| MsgSetupCompleted        (* "Setup completed successfully" *)
| MsgError (e : exn).      (* "Error: {e}" *)

Inductive loader_event :=
| ProgressUpdate (m : loader_msg)                        (* progress_update.emit *)
| ConnClose                                              (* conn.close() is called *)
| Finished (success : bool) (m : loader_msg) (cfg : config).  (* finished.emit *)

(** [not config] for a dict or [None]. *)
Definition config_falsy (c : option config) : bool :=
  match c with
  | Some cfg => bool_decide (cfg = ∅)
  | None => true
  end.

(** [ConfigLoader.run] of claude_v3.py.  [connected] says that
    [connect_postgres] returned a connection, [rows] is what the query
    of [load_config_from_db] gives, [close_error] what [conn.close()]
    raises. *)
Definition V3_run (connected : bool) (rows : option (list (string * string)))
    (close_error : option exn) (open_error : string -> option exn)
    (fs : gmap string file_content)
    : list loader_event * gmap string file_content :=
  if negb connected
  then ([ProgressUpdate MsgConnecting; Finished false MsgConnectionFailed ∅], fs)
  else
    let config := load_config_from_db rows in
    if config_falsy config
    then ([ProgressUpdate MsgConnecting; ProgressUpdate MsgLoading;
           Finished false MsgLoadFailed ∅], fs)
    else
      let cfg := default ∅ config in
      let '(ok, fs', _) := validate_microservices open_error cfg fs in
      if negb ok
      then ([ProgressUpdate MsgConnecting; ProgressUpdate MsgLoading;
             ProgressUpdate MsgValidating; Finished false MsgFilesMissing cfg], fs')
      else
        match close_error with
        | Some e =>
            ([ProgressUpdate MsgConnecting; ProgressUpdate MsgLoading;
              ProgressUpdate MsgValidating; ProgressUpdate MsgInitializing;
              ConnClose; Finished false (MsgError e) ∅], fs')
        | None =>
            ([ProgressUpdate MsgConnecting; ProgressUpdate MsgLoading;
              ProgressUpdate MsgValidating; ProgressUpdate MsgInitializing;
              ConnClose; Finished true MsgSetupCompleted cfg], fs')
        end.

Definition is_finished (e : loader_event) : bool :=
  match e with Finished _ _ _ => true | _ => false end.

(** ** Start-up: the construction of the loader

    A name that a function body reads and does not assign is looked up
    when the statement runs: among the globals of the module, then among
    the names Python itself provides (the builtins); when it is in
    neither, the statement raises [NameError].  A statement of
    [ConfigLoader.__init__] is kept as the attribute it sets, if any, and
    the names it reads. *)

Inductive startup_error :=
| NameError (name : string).     (* NameError: name '...' is not defined *)

Record init_stmt := InitStmt {
  sets : option string;          (* [self.<attr> = ...] *)
  reads : list string            (* the names the statement looks up *)
}.

(** The statements in order, until one reads a name that is not bound:
    the attributes the object has then, and the error. *)
Fixpoint run_init (globals builtins : list string) (body : list init_stmt)
    (attrs : list string) : list string * option startup_error :=
  match body with
  | [] => (attrs, None)
  | st :: rest =>
      match find (fun n => negb (mem_string n globals || mem_string n builtins))
                 (reads st) with
      | Some n => (attrs, Some (NameError n))
      | None =>
          run_init globals builtins rest
            (match sets st with Some a => attrs ++ [a] | None => attrs end)
      end
  end.

(** The names the [import] statements bind in both versions. *)
Definition common_imports : list string :=
  ["sys"; "time"; "psycopg2"; "subprocess"; "threading"; "os";
   "QApplication"; "QSplashScreen"; "QLabel"; "QVBoxLayout"; "QWidget";
   "QMainWindow"; "QListWidget"; "QListWidgetItem"; "QPushButton";
   "QHBoxLayout"; "QCheckBox"; "QDialog"; "QFormLayout"; "QLineEdit";
   "QSpinBox"; "QDialogButtonBox"; "QMessageBox"; "QTextEdit"; "QSplitter";
   "Qt"; "QThread"; "pyqtSignal"; "QTimer";
   "QPixmap"; "QPainter"; "QFont"; "QColor"; "QPen"; "QIcon"].

(** The globals of claude_v3.py: its imports, classes and [main]. *)
Definition V3_globals : list string :=
  common_imports
  ++ ["ConfigLoader"; "main"; "SettingsDialog"; "MainWindow"; "SplashScreen"].

(** The globals of claude_v4.py. *)
Definition V4_globals : list string :=
  common_imports
  ++ ["signal"; "atexit"; "QMovie";
      "ConfigLoader"; "main"; "SettingsDialog"; "MainWindow"; "SplashScreen";
      "main_window_instance"; "signal_handler"].

(** [ConfigLoader.__init__] of claude_v3.py:
    [super().__init__()], [self.config_data = {}],
    [self.default_connection = {...}]. *)
Definition V3_ConfigLoader_init (builtins : list string)
    : list string * option startup_error :=
  run_init V3_globals builtins
    [InitStmt None ["super"];
     InitStmt (Some "config_data") [];
     InitStmt (Some "default_connection") []] [].

(** [ConfigLoader.__init__] of claude_v4.py: between the two
    assignments stands [self.should_stop = Falsef]. *)
Definition V4_ConfigLoader_init (builtins : list string)
    : list string * option startup_error :=
  run_init V4_globals builtins
    [InitStmt None ["super"];
     InitStmt (Some "config_data") [];
     InitStmt (Some "should_stop") ["Falsef"];
     InitStmt (Some "default_connection") []] [].

(** How [main] ends. *)
Inductive main_outcome :=
| EventLoop                        (* [app.exec_()] is reached *)
| Uncaught (e : startup_error).    (* [main] ends with the exception *)

(** [main] of claude_v3.py up to the event loop.  The calls into Qt
    ([QApplication], the widgets of the splash screen) are taken to
    succeed; [SplashScreen()] constructs the loader. *)
Definition V3_main (builtins : list string) : M main_outcome :=
  match V3_ConfigLoader_init builtins with
  | (_, Some e) => ret (Uncaught e)
  | (_, None) => ret EventLoop
  end.

(** [main] of claude_v4.py up to the event loop: the signal set-up
    comes first. *)
Definition V4_main (builtins : list string) : M main_outcome :=
  V4.main_install_handlers ;;
  match V4_ConfigLoader_init builtins with
  | (_, Some e) => ret (Uncaught e)
  | (_, None) => ret EventLoop
  end.

(** * Properties *)

(** ** Configuration strings *)

Example parse_names_example :
  parse_names " auth_service.py,data_service.py ,, api.py
" = ["auth_service.py"; "data_service.py"; "api.py"]
  /\ parse_names "" = [].
Proof. split; reflexivity. Qed.

(** ** The dict operations *)

Lemma dict_mem_del (k : string) (d : dict) : dict_mem k (dict_del k d) = false.
Proof.
  unfold dict_mem. induction d as [|[k' v'] d IH]; simpl; [reflexivity|].
  destruct (String.eqb k k') eqn:E; simpl; [exact IH|].
  rewrite E. exact IH.
Qed.

Lemma dict_del_absent (k : string) (d : dict) :
  dict_mem k d = false -> dict_del k d = d.
Proof.
  unfold dict_mem. induction d as [|[k' v'] d IH]; simpl; [reflexivity|].
  destruct (String.eqb k k'); [discriminate|].
  intros H. rewrite IH by exact H. reflexivity.
Qed.

Lemma dict_get_set_eq (k : string) (v : pid) (d : dict) :
  dict_get k (dict_set k v d) = Some v.
Proof.
  induction d as [|[k' v'] d IH]; simpl.
  - rewrite String.eqb_refl. reflexivity.
  - destruct (String.eqb k k') eqn:E; simpl; rewrite E; [reflexivity | exact IH].
Qed.

Lemma dict_get_set_ne (k k' : string) (v : pid) (d : dict) :
  k <> k' -> dict_get k' (dict_set k v d) = dict_get k' d.
Proof.
  intros Hne. induction d as [|[k0 v0] d IH]; simpl.
  - destruct (String.eqb_spec k' k); [congruence | reflexivity].
  - destruct (String.eqb_spec k k0) as [->|Hk]; simpl.
    + destruct (String.eqb_spec k' k0); [congruence | reflexivity].
    + destruct (String.eqb k' k0); [reflexivity | exact IH].
Qed.

(** ** Framing: what a computation leaves alone

    [preserves R c] says that the world in which [c] ends, however it
    ends, is [R]-related to the one in which it started.  For a preorder
    [R] the property is inherited through the control structure. *)


Definition preserves (R : world -> world -> Prop) {A} (c : M A) : Prop :=
  forall w, R w (world_of (c w)).

Section Frame.
Context (R : relation world) `{!PreOrder R}.

Lemma preserves_ret {A} (a : A) : preserves R (ret a).
Proof. intros w. reflexivity. Qed.

Lemma preserves_raise {A} (e : exn) : preserves R (@raise A e).
Proof. intros w. reflexivity. Qed.

Lemma preserves_Hang {A} : preserves R (@Hang A).
Proof. intros w. reflexivity. Qed.

Lemma preserves_gets {A} (f : world -> A) : preserves R (gets f).
Proof. intros w. reflexivity. Qed.

Lemma preserves_modify (f : world -> world) :
  (forall w, R w (f w)) -> preserves R (modify f).
Proof. intros H w. apply H. Qed.

Lemma preserves_bind {A B} (c : M A) (k : A -> M B) :
  preserves R c -> (forall a, preserves R (k a)) -> preserves R (bind c k).
Proof.
  intros Hc Hk w. unfold bind. specialize (Hc w).
  destruct (c w) as [a w1|e w1|w1]; simpl in *; [|exact Hc|exact Hc].
  transitivity w1; [exact Hc | apply Hk].
Qed.

Lemma preserves_try_except {A} (body : M A) (handler : exn -> M A) :
  preserves R body -> (forall e, preserves R (handler e)) ->
  preserves R (try_except body handler).
Proof.
  intros Hb Hh w. unfold try_except. specialize (Hb w).
  destruct (body w) as [a w1|e w1|w1]; simpl in *; [exact Hb| |exact Hb].
  transitivity w1; [exact Hb | apply Hh].
Qed.

Lemma preserves_try_except_timeout {A} (body handler : M A) :
  preserves R body -> preserves R handler ->
  preserves R (try_except_timeout body handler).
Proof.
  intros Hb Hh. apply preserves_try_except; [exact Hb|].
  intros e. destruct (is_TimeoutExpired e); [exact Hh | apply preserves_raise].
Qed.

Lemma preserves_for_each {A} (l : list A) (body : A -> M unit) :
  (forall x, preserves R (body x)) -> preserves R (for_each l body).
Proof.
  intros Hb. induction l as [|x l IH]; simpl.
  - apply preserves_ret.
  - apply preserves_bind; [apply Hb | intros _; exact IH].
Qed.
End Frame.

(** One step of a framing proof: descend through the control structure;
    what the primitives [modify] and [emit] do is left to the caller. *)
Ltac frame_lemma lem := apply lem; try typeclasses eauto.

Ltac frame_step :=
  lazymatch goal with
  | |- preserves _ (bind _ _) => frame_lemma preserves_bind; [|intros ?]
  | |- preserves _ (ret _) => frame_lemma preserves_ret
  | |- preserves _ (raise _) => frame_lemma preserves_raise
  | |- preserves _ Hang => frame_lemma preserves_Hang
  | |- preserves _ (gets _) => frame_lemma preserves_gets
  | |- preserves _ (try_except_timeout _ _) =>
      frame_lemma preserves_try_except_timeout
  | |- preserves _ (try_except _ _) =>
      frame_lemma preserves_try_except; [|intros ?]
  | |- preserves _ (for_each _ _) => frame_lemma preserves_for_each; intros ?
  | |- preserves _ (if ?b then _ else _) => destruct b
  | |- preserves _ (match ?x with _ => _ end) => destruct x
  end.

(** ** Running the library calls *)

Lemma bind_run {A B} (c : M A) (k : A -> M B) (w : world) :
  bind c k w = match c w with
               | Ok a w' => k a w'
               | Raise e w' => Raise e w'
               | Hang w' => Hang w'
               end.
Proof. reflexivity. Qed.

Lemma wait_run (w : world) (p : pid) (t : option Z) :
  wait p t w =
    if proc_running w p
    then match t with
         | Some _ => Raise TimeoutExpired (add_event (EvWait p t) w)
         | None => Hang (add_event (EvWait p t) w)
         end
    else Ok tt (add_event (EvWait p t) w).
Proof.
  unfold wait, bind, emit, modify, poll_is_None, gets, ret, proc_running. cbn.
  destruct (procs w !! p) as [pr|]; [|reflexivity].
  destruct (bool_decide (p_status pr = Running)); destruct t; reflexivity.
Qed.

Lemma killpg_run (w : world) (g : Z) (sg : signal) :
  killpg g sg w =
    if sig_denied w g then Raise PermissionError (add_event (EvKillpg g sg) w)
    else if group_nonempty g (procs w)
         then Ok tt (set_procs (deliver_group g sg <$> procs w) (next_pid w)
                       (add_event (EvKillpg g sg) w))
         else Raise ProcessLookupError (add_event (EvKillpg g sg) w).
Proof.
  unfold killpg, bind, emit, modify, gets. cbn.
  destruct (sig_denied w g); [reflexivity|]. cbn.
  destruct (group_nonempty g (procs w)); reflexivity.
Qed.

Lemma send_signal_run (w : world) (p : pid) (sg : signal) :
  send_signal p sg w =
    match procs w !! p with
    | Some pr =>
        if bool_decide (p_status pr = Running)
        then if sig_denied w p
             then Raise PermissionError (add_event (EvKill p sg) w)
             else Ok tt (set_procs (<[p := deliver sg pr]> (procs w))
                           (next_pid w) (add_event (EvKill p sg) w))
        else Ok tt w
    | None => Ok tt w
    end.
Proof.
  unfold send_signal, poll_is_None, bind, gets, ret.
  destruct (procs w !! p) as [pr|] eqn:Hp; [|reflexivity].
  destruct (bool_decide (p_status pr = Running)); [|reflexivity].
  unfold try_except, os_kill, bind, emit, modify, gets. cbn.
  destruct (sig_denied w p); [reflexivity|]. cbn. rewrite Hp. reflexivity.
Qed.

Lemma signal_service_run (w : world) (p : pid) (sg : signal) :
  signal_service p sg w =
    if has_killpg w
    then match procs w !! p with
         | Some pr => killpg (p_pgid pr) sg w
         | None => Raise ProcessLookupError w
         end
    else send_signal p sg w.
Proof.
  unfold signal_service, bind, gets, getpgid.
  destruct (has_killpg w); [|reflexivity].
  unfold bind, gets. destruct (procs w !! p); reflexivity.
Qed.

Lemma group_nonempty_member (ps : gmap Z proc) (p : pid) (pr : proc) :
  ps !! p = Some pr -> group_nonempty (p_pgid pr) ps = true.
Proof.
  intros H. unfold group_nonempty. apply bool_decide_eq_true.
  exists p, pr. split; [exact H | reflexivity].
Qed.

(** ** [start_service] *)

Lemma V4_start_registered (w : world) (name : string) :
  dict_mem name (running_services w) = true ->
  V4.start_service name w = Ok tt (add_event (EvLog (MsgAlreadyRunning name)) w).
Proof.
  intros H. unfold V4.start_service, bind, gets. rewrite H. reflexivity.
Qed.

Lemma V4_start_spawn_fails (w : world) (name : string) (e : exn) :
  dict_mem name (running_services w) = false ->
  spawn_oracle w name = SpawnFails e ->
  V4.start_service name w =
    Ok tt (add_event (EvLog (MsgFailedStart name e))
             (add_event (EvPopen name (has_setsid w)) w)).
Proof.
  intros H Hs. unfold V4.start_service, bind, gets. rewrite H.
  unfold try_except, Popen, bind, gets, emit, modify. simpl. rewrite Hs.
  reflexivity.
Qed.

Lemma V4_start_spawns (w : world) (name : string) (ign : bool) :
  dict_mem name (running_services w) = false ->
  spawn_oracle w name = Spawns ign ->
  V4.start_service name w = Ok tt (V4.started name ign w).
Proof.
  intros H Hs. unfold V4.start_service, bind, gets. rewrite H.
  unfold try_except, Popen, bind, gets, emit, modify. simpl. rewrite Hs.
  simpl. unfold update_service_status, bind, gets, V4.started. simpl.
  destruct (mem_string name (services_list w)); reflexivity.
Qed.

(** ** [V4.stop_service] *)

Lemma bind_assoc_run {A B C} (c : M A) (f : A -> M B) (g : B -> M C) (w : world) :
  bind (bind c f) g w = bind c (fun a => bind (f a) g) w.
Proof. unfold bind. destruct (c w); reflexivity. Qed.

Lemma bind_ext {A B} (c : M A) (k1 k2 : A -> M B) (w : world) :
  (forall a w', k1 a w' = k2 a w') -> bind c k1 w = bind c k2 w.
Proof. intros H. unfold bind. destruct (c w); [apply H | reflexivity | reflexivity]. Qed.

Lemma bind_ext_l {A B} (c1 c2 : M A) (k : A -> M B) (w : world) :
  c1 w = c2 w -> bind c1 k w = bind c2 k w.
Proof. intros H. unfold bind. rewrite H. reflexivity. Qed.

Lemma try_except_timeout_ext {A} (body h1 h2 : M A) (w : world) :
  (forall w', h1 w' = h2 w') ->
  try_except_timeout body h1 w = try_except_timeout body h2 w.
Proof.
  intros H. unfold try_except_timeout, try_except.
  destruct (body w) as [a w'|e w'|w']; [reflexivity| |reflexivity].
  destruct (is_TimeoutExpired e); [apply H | reflexivity].
Qed.

Lemma group_nonempty_at (ps : gmap Z proc) (p : pid) (pr : proc) (g : Z) :
  ps !! p = Some pr -> p_pgid pr = g -> group_nonempty g ps = true.
Proof. intros H <-. exact (group_nonempty_member _ _ _ H). Qed.

Lemma V4_stop_unfold (name : string) (w : world) :
  V4.stop_service name w =
    match dict_get name (running_services w) with
    | None => Ok tt (add_event (EvLog (MsgNotRunning name)) w)
    | Some p =>
        try_except (stop_signals p ;; stop_epilogue name) (stop_handler name) w
    end.
Proof.
  unfold V4.stop_service, bind at 1, gets at 1, dict_mem.
  destruct (dict_get name (running_services w)) as [p|] eqn:Hg; [|reflexivity].
  cbn [negb]. unfold try_except. rewrite !bind_run. unfold gets at 1.
  rewrite Hg. unfold ret at 1.
  change (fun e : exn => _) with (stop_handler name).
  assert (E : forall w0,
    (killpg_available <- gets has_killpg ;;
     (if killpg_available
      then g <- getpgid p ;; killpg g SIGTERM
      else terminate p) ;;
     try_except_timeout (wait p (Some 5))
       (killpg_available' <- gets has_killpg ;;
        (if killpg_available'
         then g <- getpgid p ;; killpg g SIGKILL
         else kill p) ;;
        wait p None) ;;
     stop_epilogue name) w0
    = (stop_signals p ;; stop_epilogue name) w0).
  { intros w0. unfold stop_signals, signal_service.
    rewrite !bind_assoc_run. apply bind_ext. intros kp w1.
    apply bind_ext. intros _ w2. apply bind_ext_l.
    apply try_except_timeout_ext. intros w3. symmetry. apply bind_assoc_run. }
  transitivity (try_except (stop_signals p ;; stop_epilogue name) (stop_handler name) w);
    [|reflexivity].
  unfold try_except. rewrite <- E. reflexivity.
Qed.

(** What a signal does to the status of a process. *)
Lemma deliver_pgid sg pr : p_pgid (deliver sg pr) = p_pgid pr.
Proof. unfold deliver. destruct (p_status pr); reflexivity. Qed.

Lemma deliver_kill_status pr : p_status (deliver SIGKILL pr) = Exited.
Proof. unfold deliver. destruct (p_status pr) eqn:E; [reflexivity | exact E]. Qed.

Ltac world_simpl :=
  cbn [running_services is_closing services_list main_window_instance
       atexit_registered sigint_disp sigterm_disp host_alive cur_thread
       has_setsid has_killpg host_pgid procs next_pid spawn_oracle sig_denied
       trace add_event set_procs set_running set_closing set_services_list
       set_atexit set_disp set_host_alive set_cur_thread].

Lemma lookup_deliver_group (ps : gmap Z proc) (p : pid) (pr : proc) (g : Z)
    (sg : signal) :
  ps !! p = Some pr -> p_pgid pr = g ->
  (deliver_group g sg <$> ps) !! p = Some (deliver sg pr).
Proof.
  intros Hp Hg. rewrite lookup_fmap, Hp. cbn. unfold deliver_group.
  rewrite Hg, Z.eqb_refl. reflexivity.
Qed.

Ltac running_at H := unfold proc_running; world_simpl; rewrite H.

(** The trace only grows, by events of the executing thread. *)
Lemma emitted_refl (w : world) : emitted w w [].
Proof. split; [symmetry; apply app_nil_r | reflexivity]. Qed.

Lemma emitted_trans (w1 w2 w3 : world) (es1 es2 : list event) :
  emitted w1 w2 es1 -> emitted w2 w3 es2 -> emitted w1 w3 (es1 ++ es2).
Proof.
  intros [H1 T1] [H2 T2]. split; [|congruence].
  rewrite H2, H1, T1, map_app, app_assoc. reflexivity.
Qed.

Ltac emitted_now :=
  split; [world_simpl; rewrite <- ?app_assoc; reflexivity | reflexivity].

(** The signalling phase of [stop_service] never blocks.  It raises
    exactly when the graceful signal cannot be sent, and then nothing
    was delivered; otherwise it returns with the child gone. *)
Lemma stop_signals_ends (w : world) (p : pid) :
  match signal_failure w p with
  | Some e =>
      exists w', stop_signals p w = Raise e w'
                 /\ running_services w' = running_services w
                 /\ procs w' = procs w
                 /\ emitted w w' (signal_attempt w p SIGTERM)
  | None =>
      exists w', stop_signals p w = Ok tt w'
                 /\ running_services w' = running_services w
                 /\ services_list w' = services_list w
                 /\ proc_running w' p = false
  end.
Proof.
  unfold signal_failure, signal_attempt, stop_signals.
  rewrite bind_run, signal_service_run.
  unfold try_except_timeout, try_except.
  destruct (has_killpg w) eqn:Hk.
  - destruct (procs w !! p) as [pr|] eqn:Hp.
    2:{ eexists. repeat split; try reflexivity. symmetry; apply app_nil_r. }
    rewrite killpg_run. destruct (sig_denied w (p_pgid pr)) eqn:Hd.
    { eexists. repeat split; reflexivity. }
    rewrite (group_nonempty_member _ _ _ Hp).
    pose proof (lookup_deliver_group _ _ _ _ SIGTERM Hp eq_refl) as Hp1.
    pose proof (lookup_deliver_group _ _ _ _ SIGKILL Hp1 (deliver_pgid _ _)) as Hp2.
    rewrite wait_run; running_at Hp1.
    destruct (bool_decide (p_status (deliver SIGTERM pr) = Running)) eqn:Hr.
    + cbn [is_TimeoutExpired]. rewrite bind_run, signal_service_run.
      world_simpl. rewrite Hk, Hp1, deliver_pgid, killpg_run. world_simpl.
      rewrite Hd.
      rewrite (group_nonempty_at _ _ _ _ Hp1 (deliver_pgid _ _)).
      rewrite wait_run; running_at Hp2; rewrite deliver_kill_status.
      cbn [bool_decide decide_rel].
      eexists. split; [reflexivity|]. split; [reflexivity|]. split; [reflexivity|].
      running_at Hp2; rewrite deliver_kill_status. reflexivity.
    + eexists. split; [reflexivity|]. split; [reflexivity|]. split; [reflexivity|].
      running_at Hp1. exact Hr.
  - rewrite send_signal_run.
    destruct (procs w !! p) as [pr|] eqn:Hp.
    + destruct (bool_decide (p_status pr = Running)) eqn:Hs; cbn [andb].
      * destruct (sig_denied w p) eqn:Hd.
        { eexists. repeat split; reflexivity. }
        pose proof (lookup_insert_eq (procs w) p (deliver SIGTERM pr)) as Hp1.
        pose proof (lookup_insert_eq (<[p := deliver SIGTERM pr]> (procs w)) p
                      (deliver SIGKILL (deliver SIGTERM pr))) as Hp2.
        rewrite wait_run; running_at Hp1.
        destruct (bool_decide (p_status (deliver SIGTERM pr) = Running)) eqn:Hr.
        -- cbn [is_TimeoutExpired]. rewrite bind_run, signal_service_run.
           world_simpl. rewrite Hk, send_signal_run. world_simpl.
           rewrite Hp1, Hr, Hd.
           rewrite wait_run; running_at Hp2; rewrite deliver_kill_status.
           cbn [bool_decide decide_rel].
           eexists. split; [reflexivity|]. split; [reflexivity|]. split; [reflexivity|].
           running_at Hp2; rewrite deliver_kill_status. reflexivity.
        -- eexists. split; [reflexivity|]. split; [reflexivity|]. split; [reflexivity|].
           running_at Hp1. exact Hr.
      * rewrite wait_run; running_at Hp; rewrite Hs.
        eexists. split; [reflexivity|]. split; [reflexivity|]. split; [reflexivity|].
        running_at Hp. exact Hs.
    + rewrite wait_run. running_at Hp.
      eexists. split; [reflexivity|]. split; [reflexivity|]. split; [reflexivity|].
      running_at Hp. reflexivity.
Qed.

Lemma stop_epilogue_run (name : string) (w : world) :
  dict_mem name (running_services w) = true ->
  stop_epilogue name w = Ok tt (V4.stopped name w).
Proof.
  intros Hm.
  unfold stop_epilogue, del_running_service, V4.stopped, update_service_status,
    log_status, emit, modify, bind, gets. rewrite Hm. world_simpl.
  destruct (mem_string name (services_list w)); reflexivity.
Qed.

Lemma dict_get_mem (name : string) (p : pid) (d d' : dict) :
  dict_get name d = Some p -> d' = d -> dict_mem name d' = true.
Proof. intros H ->. unfold dict_mem. rewrite H. reflexivity. Qed.

Lemma stop_handler_run (name : string) (e : exn) (w : world) :
  stop_handler name e w =
    Ok tt (set_running (dict_del name (running_services w))
             (add_event (EvLog (MsgFailedStop name e)) w)).
Proof.
  unfold stop_handler, del_running_service, log_status, emit, modify, bind, gets.
  world_simpl.
  destruct (dict_mem name (running_services w)) eqn:Hm;
    [world_simpl; rewrite Hm; reflexivity|].
  unfold ret. f_equal. unfold set_running. world_simpl.
  rewrite dict_del_absent by exact Hm. reflexivity.
Qed.


Lemma deliver_term_running (pr : proc) :
  p_status pr = Running ->
  bool_decide (p_status (deliver SIGTERM pr) = Running) = p_ignores_term pr.
Proof.
  intros H. unfold deliver. rewrite H. cbn. destruct (p_ignores_term pr); reflexivity.
Qed.

(** The signalling phase for a running child that can be signalled: the
    graceful signal, the bounded wait and, only for a child that
    outlasts the wait, one forceful signal and the unbounded wait.  With
    [os.killpg] every member of the child's group gets the same signals. *)
Lemma stop_signals_delivered (w : world) (p : pid) (pr : proc) :
  procs w !! p = Some pr ->
  p_status pr = Running ->
  signal_failure w p = None ->
  exists w',
    stop_signals p w = Ok tt w'
    /\ emitted w w'
         (signal_attempt w p SIGTERM ++ EvWait p (Some 5)
            :: (if p_ignores_term pr
                then signal_attempt w p SIGKILL ++ [EvWait p None]
                else []))
    /\ running_services w' = running_services w
    /\ services_list w' = services_list w
    /\ proc_running w' p = false
    /\ (has_killpg w = true ->
        forall q qr, procs w !! q = Some qr -> p_pgid qr = p_pgid pr ->
          procs w' !! q =
            Some (if p_ignores_term pr
                  then deliver SIGKILL (deliver SIGTERM qr)
                  else deliver SIGTERM qr)).
Proof.
  intros Hp Hs Hf. unfold signal_failure in Hf. unfold signal_attempt, stop_signals.
  rewrite bind_run, signal_service_run.
  unfold try_except_timeout, try_except. rewrite Hp in *.
  assert (Hb : bool_decide (p_status pr = Running) = true)
    by (apply bool_decide_eq_true; exact Hs).
  destruct (has_killpg w) eqn:Hk.
  - rewrite killpg_run. destruct (sig_denied w (p_pgid pr)) eqn:Hd; [discriminate|].
    rewrite (group_nonempty_member _ _ _ Hp).
    pose proof (lookup_deliver_group _ _ _ _ SIGTERM Hp eq_refl) as Hp1.
    pose proof (lookup_deliver_group _ _ _ _ SIGKILL Hp1 (deliver_pgid _ _)) as Hp2.
    rewrite wait_run; running_at Hp1. rewrite (deliver_term_running _ Hs).
    destruct (p_ignores_term pr) eqn:Hi.
    + cbn [is_TimeoutExpired]. rewrite bind_run, signal_service_run.
      world_simpl. rewrite Hk, Hp1, deliver_pgid, killpg_run. world_simpl.
      rewrite Hd.
      rewrite (group_nonempty_at _ _ _ _ Hp1 (deliver_pgid _ _)).
      rewrite wait_run; running_at Hp2; rewrite deliver_kill_status.
      cbn [bool_decide decide_rel].
      eexists. split; [reflexivity|]. split; [emitted_now|].
      split; [reflexivity|]. split; [reflexivity|]. split.
      * running_at Hp2; rewrite deliver_kill_status. reflexivity.
      * intros _ q qr Hq Hg. world_simpl.
        apply lookup_deliver_group; [|rewrite deliver_pgid; exact Hg].
        apply lookup_deliver_group; assumption.
    + eexists. split; [reflexivity|]. split; [emitted_now|].
      split; [reflexivity|]. split; [reflexivity|]. split.
      * running_at Hp1. rewrite (deliver_term_running _ Hs). exact Hi.
      * intros _ q qr Hq Hg. world_simpl. apply lookup_deliver_group; assumption.
  - rewrite send_signal_run, Hp, Hb in *. cbn [andb] in Hf.
    destruct (sig_denied w p) eqn:Hd; [discriminate|].
    pose proof (lookup_insert_eq (procs w) p (deliver SIGTERM pr)) as Hp1.
    pose proof (lookup_insert_eq (<[p := deliver SIGTERM pr]> (procs w)) p
                  (deliver SIGKILL (deliver SIGTERM pr))) as Hp2.
    rewrite wait_run; running_at Hp1. rewrite (deliver_term_running _ Hs).
    destruct (p_ignores_term pr) eqn:Hi.
    + cbn [is_TimeoutExpired]. rewrite bind_run, signal_service_run.
      world_simpl. rewrite Hk, send_signal_run. world_simpl.
      rewrite Hp1, (deliver_term_running _ Hs), Hi, Hd.
      rewrite wait_run; running_at Hp2; rewrite deliver_kill_status.
      cbn [bool_decide decide_rel].
      eexists. split; [reflexivity|]. split; [emitted_now|].
      split; [reflexivity|]. split; [reflexivity|]. split; [|discriminate].
      running_at Hp2; rewrite deliver_kill_status. reflexivity.
    + eexists. split; [reflexivity|]. split; [emitted_now|].
      split; [reflexivity|]. split; [reflexivity|]. split; [|discriminate].
      running_at Hp1. rewrite (deliver_term_running _ Hs). exact Hi.
Qed.

Lemma stopped_emitted (name : string) (w : world) :
  emitted w (V4.stopped name w)
    ((if mem_string name (services_list w) then [EvStatus name false] else [])
     ++ [EvLog (MsgStopped name)]).
Proof.
  unfold V4.stopped. destruct (mem_string name (services_list w)); emitted_now.
Qed.

Lemma stopped_running_services (name : string) (w : world) :
  running_services (V4.stopped name w) = dict_del name (running_services w).
Proof.
  unfold V4.stopped. destruct (mem_string name (services_list w)); reflexivity.
Qed.

Lemma stopped_procs (name : string) (w : world) :
  procs (V4.stopped name w) = procs w.
Proof.
  unfold V4.stopped. destruct (mem_string name (services_list w)); reflexivity.
Qed.

(** Without a failing signal the stop takes the ordinary path. *)
Lemma V4_stop_success (w : world) (name : string) (p : pid) :
  dict_get name (running_services w) = Some p ->
  signal_failure w p = None ->
  exists w1, V4.stop_service name w = Ok tt (V4.stopped name w1)
             /\ proc_running w1 p = false.
Proof.
  intros Hg Hf. rewrite V4_stop_unfold, Hg. unfold try_except. rewrite bind_run.
  pose proof (stop_signals_ends w p) as H. rewrite Hf in H.
  destruct H as (w1 & -> & Hrs & _ & Hr).
  rewrite stop_epilogue_run by exact (dict_get_mem _ _ _ _ Hg Hrs).
  exists w1. split; [reflexivity | exact Hr].
Qed.

(** With a failing signal the entry is removed all the same. *)
Lemma V4_stop_failure (w : world) (name : string) (p : pid) (e : exn) :
  dict_get name (running_services w) = Some p ->
  signal_failure w p = Some e ->
  exists w',
    V4.stop_service name w = Ok tt w'
    /\ emitted w w' (signal_attempt w p SIGTERM ++ [EvLog (MsgFailedStop name e)])
    /\ running_services w' = dict_del name (running_services w)
    /\ procs w' = procs w.
Proof.
  intros Hg Hf. rewrite V4_stop_unfold, Hg. unfold try_except. rewrite bind_run.
  pose proof (stop_signals_ends w p) as H. rewrite Hf in H.
  destruct H as (w1 & -> & Hrs & Hps & Hem). rewrite stop_handler_run.
  eexists. split; [reflexivity|]. split; [|split].
  - eapply emitted_trans; [exact Hem|]. emitted_now.
  - world_simpl. rewrite Hrs. reflexivity.
  - exact Hps.
Qed.

Lemma V4_start_total (w : world) (name : string) :
  exists w1, V4.start_service name w = Ok tt w1.
Proof.
  destruct (dict_mem name (running_services w)) eqn:Hm.
  - rewrite V4_start_registered by exact Hm. eauto.
  - destruct (spawn_oracle w name) as [e|ign] eqn:Hs.
    + rewrite (V4_start_spawn_fails _ _ e) by assumption. eauto.
    + rewrite (V4_start_spawns _ _ ign) by assumption. eauto.
Qed.



(** ** C1: graceful, then forceful *)




(** What claude_v3.py does there: one SIGTERM, one bounded wait, no
    SIGKILL; the child is still running and still registered. *)
Example V3_stop_stubborn_child :
  let w := world_of ((V3.start_service "a.py" ;; V3.stop_service "a.py")%py
                       (unix_world stubborn permitted)) in
  events w = [EvPopen "a.py" false; EvLog (MsgStarted "a.py" 100);
              EvKill 100 SIGTERM; EvWait 100 (Some 5);
              EvLog (MsgFailedStop "a.py" TimeoutExpired)]
  /\ running_services w = [("a.py", 100)]
  /\ proc_running w 100 = true.
Proof. vm_compute. auto. Qed.

(** ** C3: failing signals *)

(** C3, as amended: in claude_v4.py, when the graceful signal of
    [stop_service] cannot be sent (the host may not signal the target,
    or the child is unknown where its group is looked up), the failure is
    logged as "Failed to stop", never as "Stopped", and the registry
    entry is removed unconditionally: the process is not inspected and is
    left as it was.  When the signal can be sent, the stop takes the
    ordinary path and ends with the child gone. *)
Theorem V4_stop_signal_failure_removes_entry (w : world) (name : string) (p : pid) :
  dict_get name (running_services w) = Some p ->
  match signal_failure w p with
  | Some e =>
      exists w',
        V4.stop_service name w = Ok tt w'
        /\ emitted w w'
             (signal_attempt w p SIGTERM ++ [EvLog (MsgFailedStop name e)])
        /\ running_services w' = dict_del name (running_services w)
        /\ procs w' = procs w
  | None =>
      exists w1,
        V4.stop_service name w = Ok tt (V4.stopped name w1)
        /\ proc_running w1 p = false
  end.
Proof.
  intros Hg. destruct (signal_failure w p) as [e|] eqn:Hf.
  - apply (V4_stop_failure w name p e Hg Hf).
  - apply (V4_stop_success w name p Hg Hf).
Qed.

Lemma V4_stop_signal_failure_removes_entry_witness :
  let w := world_of (V4.start_service "a.py" (unix_world polite (denied_for 100))) in
  exists w',
    V4.stop_service "a.py" w = Ok tt w'
    /\ emitted w w'
         [EvKillpg 100 SIGTERM; EvLog (MsgFailedStop "a.py" PermissionError)]
    /\ running_services w' = []
    /\ procs w' = procs w.
Proof.
  exact (V4_stop_signal_failure_removes_entry
           (world_of (V4.start_service "a.py" (unix_world polite (denied_for 100))))
           "a.py" 100 eq_refl).
Defined.

(** C3 as stated fails: a child that the host may not signal stays
    alive, yet its entry is removed. *)
Lemma V4_stop_does_not_keep_unkillable : ~ keeps_unkillable V4.stop_service.
Proof.
  intros H.
  destruct (H (world_of (V4.start_service "a.py" (unix_world polite (denied_for 100))))
              "a.py" 100 PermissionError eq_refl eq_refl)
    as (w' & es & Hrun & _ & _ & _ & Hgone).
  vm_compute in Hrun. injection Hrun as <-.
  specialize (Hgone eq_refl). vm_compute in Hgone. discriminate Hgone.
Qed.

(** ** C5: a failed spawn *)

(** C5: in claude_v4.py, when [Popen] raises for an unregistered name,
    [start_service] makes that one spawn attempt and no other, logs
    "Failed to start" with the error, and leaves the registry and the
    process table exactly as they were. *)
Theorem V4_start_spawn_error_leaves_registry (w : world) (name : string) (e : exn) :
  dict_mem name (running_services w) = false ->
  spawn_oracle w name = SpawnFails e ->
  exists w',
    V4.start_service name w = Ok tt w'
    /\ emitted w w' [EvPopen name (has_setsid w); EvLog (MsgFailedStart name e)]
    /\ running_services w' = running_services w
    /\ procs w' = procs w
    /\ next_pid w' = next_pid w.
Proof.
  intros Hm Hs. rewrite (V4_start_spawn_fails w name e Hm Hs).
  eexists. split; [reflexivity|]. split; [emitted_now|]. auto.
Qed.

Lemma V4_start_spawn_error_leaves_registry_witness :
  let w := unix_world (fun _ => SpawnFails FileNotFoundError) permitted in
  exists w',
    V4.start_service "a.py" w = Ok tt w'
    /\ emitted w w' [EvPopen "a.py" true;
                     EvLog (MsgFailedStart "a.py" FileNotFoundError)]
    /\ running_services w' = []
    /\ procs w' = procs w
    /\ next_pid w' = 100.
Proof.
  exact (V4_start_spawn_error_leaves_registry
           (unix_world (fun _ => SpawnFails FileNotFoundError) permitted)
           "a.py" FileNotFoundError eq_refl eq_refl).
Defined.

(** ** C6: starting a service that is registered *)

Lemma V3_start_registered (w : world) (name : string) :
  dict_mem name (running_services w) = true ->
  V3.start_service name w = Ok tt (add_event (EvLog (MsgAlreadyRunning name)) w).
Proof.
  intros H. unfold V3.start_service, bind, gets. rewrite H. reflexivity.
Qed.

(** C6: in both versions, [start_service] for a registered name logs
    "already running", spawns nothing, and leaves the registry and the
    process table as they were: the name maps to the same process in the
    same state. *)
Theorem start_service_already_running :
  rejects_second_start V4.start_service /\ rejects_second_start V3.start_service.
Proof.
  split; intros w name p Hg;
    assert (Hm : dict_mem name (running_services w) = true)
      by (unfold dict_mem; rewrite Hg; reflexivity).
  - rewrite (V4_start_registered w name Hm).
    eexists. split; [reflexivity|]. split; [emitted_now|]. auto.
  - rewrite (V3_start_registered w name Hm).
    eexists. split; [reflexivity|]. split; [emitted_now|]. auto.
Qed.

Lemma start_service_already_running_witness :
  let w := world_of (V4.start_service "a.py" (unix_world polite permitted)) in
  exists w',
    V4.start_service "a.py" w = Ok tt w'
    /\ emitted w w' [EvLog (MsgAlreadyRunning "a.py")]
    /\ running_services w' = [("a.py", 100)]
    /\ procs w' = procs w
    /\ next_pid w' = 101.
Proof.
  exact (proj1 start_service_already_running
           (world_of (V4.start_service "a.py" (unix_world polite permitted)))
           "a.py" 100 eq_refl).
Defined.

(** ** C8: process groups *)

Lemma V4_stop_delivered (w : world) (name : string) (p : pid) (pr : proc) :
  dict_get name (running_services w) = Some p ->
  procs w !! p = Some pr ->
  p_status pr = Running ->
  signal_failure w p = None ->
  exists w1,
    V4.stop_service name w = Ok tt (V4.stopped name w1)
    /\ (has_killpg w = true ->
        forall q qr, procs w !! q = Some qr -> p_pgid qr = p_pgid pr ->
          procs w1 !! q =
            Some (if p_ignores_term pr
                  then deliver SIGKILL (deliver SIGTERM qr)
                  else deliver SIGTERM qr)).
Proof.
  intros Hg Hp Hs Hf.
  destruct (stop_signals_delivered w p pr Hp Hs Hf)
    as (w1 & Hrun & _ & Hrs & _ & _ & Hgrp).
  rewrite V4_stop_unfold, Hg. unfold try_except. rewrite bind_run, Hrun.
  rewrite stop_epilogue_run by exact (dict_get_mem _ _ _ _ Hg Hrs). exists w1. split; [reflexivity | exact Hgrp].
Qed.

(** C8, as amended: in claude_v4.py, on a platform that has [os.setsid]
    and [os.killpg], every service that can be spawned is started as the
    leader of a new process group, and the signals of [stop_service] are
    sent to that group: they reach the child and a process the child has
    forked.  (Elsewhere the child stays in the group of the control panel
    and the signals go to the child alone.) *)
Theorem V4_unix_signals_reach_group (w : world) :
  has_setsid w = true -> has_killpg w = true ->
  group_directed_at V4.start_service V4.stop_service w.
Proof.
  intros Hss Hkp name ign ign' Hm Hsp Hd.
  set (p := next_pid w).
  rewrite (V4_start_spawns w name ign Hm Hsp).
  set (w1 := V4.started name ign w).
  assert (Hp1 : procs w1 !! p = Some (mkProc p Running ign [])).
  { subst w1. unfold V4.started. rewrite Hss.
    destruct (mem_string name (services_list w)); world_simpl; apply lookup_insert_eq. }
  assert (Hn1 : next_pid w1 = p + 1).
  { subst w1. unfold V4.started.
    destruct (mem_string name (services_list w)); reflexivity. }
  assert (Hr1 : dict_get name (running_services w1) = Some p).
  { subst w1. unfold V4.started.
    destruct (mem_string name (services_list w)); world_simpl; apply dict_get_set_eq. }
  set (w2 := set_procs (<[p + 1 := mkProc p Running ign' []]> (procs w1)) (p + 1 + 1) w1).
  assert (Hf : os_fork p ign' w1 = Ok (p + 1) w2).
  { unfold os_fork, bind, gets. cbv beta. rewrite Hp1.
    unfold modify, ret. cbv beta. rewrite Hn1. reflexivity. }
  assert (Hp2 : procs w2 !! p = Some (mkProc p Running ign [])).
  { subst w2. world_simpl. rewrite lookup_insert_ne by lia. exact Hp1. }
  assert (Hq2 : procs w2 !! (p + 1) = Some (mkProc p Running ign' [])).
  { subst w2. world_simpl. apply lookup_insert_eq. }
  assert (Hsf : signal_failure w2 p = None).
  { unfold signal_failure. 
    replace (has_killpg w2) with (has_killpg w)
      by (subst w2 w1; unfold V4.started;
          destruct (mem_string name (services_list w)); reflexivity).
    rewrite Hkp, Hp2. cbn [p_pgid].
    replace (sig_denied w2) with (sig_denied w)
      by (subst w2 w1; unfold V4.started;
          destruct (mem_string name (services_list w)); reflexivity).
    fold p in Hd. rewrite Hd. reflexivity. }
  assert (Hk2 : has_killpg w2 = true).
  { subst w2 w1; unfold V4.started;
      destruct (mem_string name (services_list w)); exact Hkp. }
  destruct (V4_stop_delivered w2 name p _ Hr1 Hp2 eq_refl Hsf) as (w3 & Hstop & Hgrp).
  specialize (Hgrp Hk2).
  pose proof (Hgrp p _ Hp2 eq_refl) as Hp3.
  pose proof (Hgrp (p + 1) _ Hq2 eq_refl) as Hq3.
  exists w1, w2, (V4.stopped name w3), (p + 1). cbn zeta.
  split; [reflexivity|]. split; [exact Hr1|].
  split; [eexists; split; [exact Hp1 | reflexivity]|].
  split; [exact Hf|]. split; [exact Hstop|].
  unfold received, proc_running. rewrite stopped_procs, Hp3, Hq3.
  cbn [p_ignores_term].
  destruct ign, ign'; cbn; repeat split; auto; discriminate.
Qed.

Lemma V4_unix_signals_reach_group_witness :
  let w := unix_world stubborn permitted in
  exists w1 w2 w3 q,
    V4.start_service "a.py" w = Ok tt w1
    /\ dict_get "a.py" (running_services w1) = Some 100
    /\ (exists pr, procs w1 !! 100 = Some pr /\ p_pgid pr = 100)
    /\ os_fork 100 false w1 = Ok q w2
    /\ V4.stop_service "a.py" w2 = Ok tt w3
    /\ In SIGTERM (received w3 100)
    /\ In SIGTERM (received w3 q)
    /\ (true = true ->
        In SIGKILL (received w3 100) /\ proc_running w3 q = false).
Proof.
  exact (V4_unix_signals_reach_group (unix_world stubborn permitted)
           eq_refl eq_refl "a.py" true false eq_refl eq_refl eq_refl).
Defined.

(** C8 as stated fails: where [os.setsid] does not exist the child is
    not given a group of its own. *)
Lemma V4_not_group_directed_everywhere :
  ~ (forall w, group_directed_at V4.start_service V4.stop_service w).
Proof.
  intros H.
  destruct (H (windows_world polite permitted) "a.py" false false
              eq_refl eq_refl eq_refl)
    as (w1 & w2 & w3 & q & H1 & _ & (pr & Hpr & Hg) & _).
  vm_compute in H1. injection H1 as <-.
  vm_compute in Hpr. injection Hpr as <-.
  discriminate Hg.
Qed.

(** What happens there: the child shares the group of the control panel,
    the signal goes to the child alone, and a process it forked is
    neither signalled nor stopped. *)
Example V4_windows_forked_process_survives :
  let w := world_of ((V4.start_service "a.py" ;;
                      q <- os_fork 100 false ;;
                      V4.stop_service "a.py")%py
                       (windows_world polite permitted)) in
  events w = [EvPopen "a.py" false; EvLog (MsgStarted "a.py" 100);
              EvKill 100 SIGTERM; EvWait 100 (Some 5);
              EvLog (MsgStopped "a.py")]
  /\ received w 101 = []
  /\ proc_running w 101 = true.
Proof. vm_compute. auto. Qed.

(** claude_v3.py never creates a process group, whatever the platform. *)
Example V3_not_group_directed :
  ~ group_directed_at V3.start_service V3.stop_service
      (unix_world polite permitted).
Proof.
  intros H.
  destruct (H "a.py" false false eq_refl eq_refl eq_refl)
    as (w1 & w2 & w3 & q & H1 & _ & (pr & Hpr & Hg) & _).
  vm_compute in H1. injection H1 as <-.
  vm_compute in Hpr. injection Hpr as <-.
  discriminate Hg.
Qed.

(** ** C7: the auto-start sweep *)

Lemma dict_mem_set (k k' : string) (v : pid) (d : dict) :
  dict_mem k' (dict_set k v d) = String.eqb k' k || dict_mem k' d.
Proof.
  unfold dict_mem. destruct (String.eqb_spec k' k) as [->|Hne].
  - rewrite dict_get_set_eq. reflexivity.
  - rewrite dict_get_set_ne by congruence. reflexivity.
Qed.

Lemma started_emitted (name : string) (ign : bool) (w : world) :
  emitted w (V4.started name ign w)
    (EvPopen name (has_setsid w)
     :: (if mem_string name (services_list w) then [EvStatus name true] else [])
     ++ [EvLog (MsgStarted name (next_pid w))]).
Proof.
  unfold V4.started. destruct (mem_string name (services_list w)); emitted_now.
Qed.

Lemma started_running_services (name : string) (ign : bool) (w : world) :
  running_services (V4.started name ign w)
  = dict_set name (next_pid w) (running_services w).
Proof.
  unfold V4.started. destruct (mem_string name (services_list w)); reflexivity.
Qed.

Lemma started_spawn_oracle (name : string) (ign : bool) (w : world) :
  spawn_oracle (V4.started name ign w) = spawn_oracle w.
Proof.
  unfold V4.started. destruct (mem_string name (services_list w)); reflexivity.
Qed.

(** One call of [start_service]: it returns, logs exactly one line, about
    its argument, and registers the name if it was not and the spawn
    succeeded. *)
Lemma V4_start_step (w : world) (name : string) :
  exists w' es,
    V4.start_service name w = Ok tt w'
    /\ emitted w w' es
    /\ omap log_subject es = [name]
    /\ spawn_oracle w' = spawn_oracle w
    /\ forall n,
        dict_mem n (running_services w') = true
        <-> dict_mem n (running_services w) = true
            \/ (n = name /\ exists ign, spawn_oracle w name = Spawns ign).
Proof.
  destruct (dict_mem name (running_services w)) eqn:Hm.
  - rewrite V4_start_registered by exact Hm.
    eexists. exists [EvLog (MsgAlreadyRunning name)].
    split; [reflexivity|]. split; [emitted_now|]. split; [reflexivity|].
    split; [reflexivity|]. intros n. world_simpl.
    split; [auto | intros [H|[-> _]]; assumption].
  - destruct (spawn_oracle w name) as [e|ign] eqn:Hs.
    + rewrite (V4_start_spawn_fails _ _ e) by assumption.
      eexists. exists [EvPopen name (has_setsid w); EvLog (MsgFailedStart name e)].
      split; [reflexivity|]. split; [emitted_now|]. split; [reflexivity|].
      split; [reflexivity|]. intros n. world_simpl.
      split; [auto | intros [H|[_ [ign Hi]]]; [assumption | discriminate]].
    + rewrite (V4_start_spawns _ _ ign) by assumption.
      eexists. eexists. split; [reflexivity|].
      split; [apply started_emitted|].
      split; [destruct (mem_string name (services_list w)); reflexivity|].
      split; [apply started_spawn_oracle|].
      intros n. rewrite started_running_services, dict_mem_set, orb_true_iff.
      destruct (String.eqb_spec n name) as [->|Hne]; split; intros H; eauto.
      * destruct H as [H|H]; [discriminate | auto].
      * destruct H as [H|[H _]]; [auto | contradiction].
Qed.

(** The loop of the sweep. *)
Lemma V4_start_sweep (names : list string) (w : world) :
  exists w' es,
    for_each names V4.start_service w = Ok tt w'
    /\ emitted w w' es
    /\ omap log_subject es = names
    /\ spawn_oracle w' = spawn_oracle w
    /\ forall n,
        dict_mem n (running_services w') = true
        <-> dict_mem n (running_services w) = true
            \/ (In n names /\ exists ign, spawn_oracle w n = Spawns ign).
Proof.
  revert w. induction names as [|name names IH]; intros w.
  - exists w, []. split; [reflexivity|]. split; [apply emitted_refl|].
    split; [reflexivity|]. split; [reflexivity|].
    intros n. split; [auto | intros [H|[[] _]]; exact H].
  - destruct (V4_start_step w name) as (w1 & es1 & H1 & He1 & Hl1 & Ho1 & Hr1).
    destruct (IH w1) as (w2 & es2 & H2 & He2 & Hl2 & Ho2 & Hr2).
    exists w2, (es1 ++ es2). cbn [for_each]. rewrite bind_run, H1.
    split; [exact H2|]. split; [eapply emitted_trans; eassumption|].
    split; [rewrite omap_app, Hl1, Hl2; reflexivity|].
    split; [congruence|].
    intros n. rewrite Hr2, Hr1, Ho1. cbn [In]. split.
    + intros [[H|[-> H]]|[H Hs]]; eauto.
    + intros [H|[[<-|H] Hs]]; eauto.
Qed.

(** C7, as amended: in claude_v4.py the sweep at session start calls
    [start_service] once for every entry of the auto-start list, in the
    listed order, without looking at the list of microservices and
    without reporting a configuration error; afterwards a name is
    registered exactly if it is in the auto-start list and its spawn
    succeeded, so a microservice that is not in the auto-start list has
    no entry. *)
Theorem V4_auto_start_registers_listed_names (w : world) (cfg : config) :
  exists w' es,
    V4.MainWindow_init cfg w = Ok tt w'
    /\ emitted w w' es
    /\ omap log_subject es = parse_names (config_get cfg "auto_start")
    /\ (forall n,
          dict_mem n (running_services w') = true
          <-> In n (parse_names (config_get cfg "auto_start"))
              /\ exists ign, spawn_oracle w n = Spawns ign)
    /\ (forall n,
          In n (parse_names (config_get cfg "microservices")) ->
          ~ In n (parse_names (config_get cfg "auto_start")) ->
          dict_mem n (running_services w') = false).
Proof.
  unfold V4.MainWindow_init, V4.auto_start_services.
  set (w0 := set_services_list [] (set_atexit true (set_closing false (set_running [] w)))).
  destruct (V4_start_sweep (parse_names (config_get cfg "auto_start")) w0)
    as (w1 & es & H1 & He & Hl & Ho & Hr).
  assert (Hiff : forall n,
          dict_mem n (running_services w1) = true
          <-> In n (parse_names (config_get cfg "auto_start"))
              /\ exists ign, spawn_oracle w n = Spawns ign).
  { intros n. rewrite Hr. subst w0. world_simpl. cbn [dict_mem dict_get].
    split; [intros [H|H]; [discriminate | exact H] | auto]. }
  eexists. exists es.
  split.
  { unfold bind at 1 2 3 4 5, modify at 1 2 3 4. cbv beta iota. fold w0.
    rewrite H1. unfold load_microservices, bind, gets, modify. reflexivity. }
  split; [|split; [exact Hl|split]].
  - destruct He as [Ht Hc]. split; [exact Ht | exact Hc].
  - exact Hiff.
  - intros n _ Hn. world_simpl. specialize (Hiff n).
    destruct (dict_mem n (running_services w1)); [|reflexivity].
    destruct (proj1 Hiff eq_refl) as [Hin _]. contradiction.
Qed.

(** C7 as stated fails: a name of the auto-start list that is not a
    microservice is started and registered like any other. *)
Lemma V4_auto_start_ignores_descriptors :
  ~ auto_start_checks_descriptors V4.MainWindow_init.
Proof.
  intros H.
  destruct (H (unix_world polite permitted) stray_config
              (fun _ => ex_intro _ false eq_refl)) as (w' & Hrun & Hiff).
  vm_compute in Hrun. injection Hrun as <-.
  destruct (proj1 (Hiff "x.py") eq_refl) as [_ Hd].
  vm_compute in Hd. destruct Hd as [Hd|[]]. discriminate Hd.
Qed.

(** What happens there: the stray script is spawned and registered, and
    nothing but the start is logged. *)
Example V4_auto_start_stray_name :
  let w := world_of (V4.MainWindow_init stray_config (unix_world polite permitted)) in
  events w = [EvPopen "x.py" true; EvLog (MsgStarted "x.py" 100)]
  /\ running_services w = [("x.py", 100)]
  /\ services_list w = ["a.py"].
Proof. vm_compute. auto. Qed.

(** ** Quiet computations *)

#[global] Instance quiet_preorder : PreOrder quiet.
Proof.
  split.
  - intros w. split; reflexivity.
  - intros w1 w2 w3 [H1 H2] [H3 H4]. split; congruence.
Qed.

Lemma quiet_add_event (e : event) (w : world) :
  is_sweep_start e = false -> quiet w (add_event e w).
Proof.
  intros H. split; [reflexivity|]. unfold sweeps. world_simpl.
  rewrite map_app, List.filter_app. cbn. rewrite H, app_nil_r. reflexivity.
Qed.

Lemma quiet_emit (e : event) :
  is_sweep_start e = false -> preserves quiet (emit e).
Proof. intros H w. apply quiet_add_event. exact H. Qed.

(** Descend, and close the leaves: an event that is not the start of a
    sweep, or an update of fields that [quiet] does not look at. *)
Ltac quiet_tac :=
  repeat first
    [ frame_step
    | apply quiet_emit; reflexivity
    | apply preserves_modify; intros ?; split; reflexivity ].

Lemma quiet_Popen (name : string) (ns : bool) : preserves quiet (Popen name ns).
Proof. unfold Popen. quiet_tac. Qed.

Lemma quiet_killpg (g : Z) (sg : signal) : preserves quiet (killpg g sg).
Proof. unfold killpg. quiet_tac. Qed.

Lemma quiet_send_signal (p : pid) (sg : signal) : preserves quiet (send_signal p sg).
Proof. unfold send_signal, poll_is_None, os_kill. quiet_tac. Qed.

Lemma quiet_wait (p : pid) (t : option Z) : preserves quiet (wait p t).
Proof. unfold wait, poll_is_None. quiet_tac. Qed.

Lemma quiet_start_service (name : string) : preserves quiet (V4.start_service name).
Proof.
  unfold V4.start_service, update_service_status, log_status.
  quiet_tac. apply quiet_Popen.
Qed.

Lemma quiet_stop_service (name : string) : preserves quiet (V4.stop_service name).
Proof.
  unfold V4.stop_service, del_running_service, update_service_status, log_status,
    getpgid, terminate, kill.
  quiet_tac; first [apply quiet_killpg | apply quiet_send_signal | apply quiet_wait].
Qed.

Lemma quiet_cleanup_one (item : string * pid) : preserves quiet (V4.cleanup_one item).
Proof.
  destruct item as [name p].
  unfold V4.cleanup_one, poll_is_None, print, terminate, kill.
  quiet_tac; first [apply quiet_send_signal | apply quiet_wait].
Qed.

(** ** Calls that return *)

Lemma for_each_total {A} (body : A -> M unit) (l : list A) :
  (forall x w, exists w', body x w = Ok tt w') ->
  forall w, exists w', for_each l body w = Ok tt w'.
Proof.
  intros Hb. induction l as [|x l IH]; intros w.
  - exists w. reflexivity.
  - destruct (Hb x w) as (w1 & H1). destruct (IH w1) as (w2 & H2).
    exists w2. cbn [for_each]. rewrite bind_run, H1. exact H2.
Qed.

(** One round of the loop of [cleanup_all_processes] returns, whatever
    the child does: every exception is caught, and the unbounded wait is
    reached only after a forceful signal was delivered. *)
Lemma V4_cleanup_one_total (item : string * pid) (w : world) :
  exists w', V4.cleanup_one item w = Ok tt w'.
Proof.
  destruct item as [name p]. unfold V4.cleanup_one, try_except.
  rewrite bind_run. unfold poll_is_None at 1, bind at 1, gets at 1, ret at 1.
  destruct (procs w !! p) as [pr|] eqn:Hp; [|eauto].
  destruct (bool_decide (p_status pr = Running)) eqn:Hs; [|eauto].
  rewrite bind_run. unfold print at 1, emit at 1, modify at 1.
  rewrite bind_run. unfold terminate. rewrite send_signal_run. world_simpl.
  rewrite Hp, Hs.
  destruct (sig_denied w p) eqn:Hd; [unfold print, emit, modify; eauto|].
  unfold try_except_timeout, try_except.
  pose proof (lookup_insert_eq (procs w) p (deliver SIGTERM pr)) as Hp1.
  pose proof (lookup_insert_eq (<[p := deliver SIGTERM pr]> (procs w)) p
                (deliver SIGKILL (deliver SIGTERM pr))) as Hp2.
  rewrite wait_run; running_at Hp1.
  destruct (bool_decide (p_status (deliver SIGTERM pr) = Running)) eqn:Hr; [|eauto].
  cbn [is_TimeoutExpired]. rewrite bind_run. unfold print at 1, emit at 1, modify at 1.
  rewrite bind_run. unfold kill. rewrite send_signal_run. world_simpl.
  rewrite Hp1, Hr, Hd.
  rewrite wait_run; running_at Hp2; rewrite deliver_kill_status.
  cbn [bool_decide decide_rel]. eauto.
Qed.

(** ** [cleanup_all_processes] and the closing flag *)

Lemma V4_cleanup_closing (w : world) :
  is_closing w = true -> V4.cleanup_all_processes w = Ok tt w.
Proof.
  intros H. unfold V4.cleanup_all_processes, bind, gets. rewrite H. reflexivity.
Qed.

Lemma V4_stop_all_closing (w : world) :
  is_closing w = true -> V4.stop_all_services w = Ok tt w.
Proof.
  intros H. unfold V4.stop_all_services, bind, gets. rewrite H. reflexivity.
Qed.

Lemma V4_closeEvent_closing (w : world) :
  is_closing w = true -> V4.closeEvent w = Ok tt w.
Proof.
  intros H. unfold V4.closeEvent, bind, gets. rewrite H. reflexivity.
Qed.

Lemma shutdown_call_closing (a : action) (w : world) :
  is_shutdown_call a = true -> is_closing w = true -> perform a w = Ok tt w.
Proof.
  intros Ha Hc. destruct a; try discriminate Ha; cbn [perform].
  - apply V4_stop_all_closing, Hc.
  - apply V4_closeEvent_closing, Hc.
  - apply V4_cleanup_closing, Hc.
Qed.

(** The first call does the sweep: it returns, with the flag set, the
    registry empty and one sweep more in the trace. *)
Lemma V4_cleanup_runs (w : world) :
  is_closing w = false ->
  exists w',
    V4.cleanup_all_processes w = Ok tt w'
    /\ is_closing w' = true
    /\ running_services w' = []
    /\ sweeps (trace w') = S (sweeps (trace w)).
Proof.
  intros Hc. unfold V4.cleanup_all_processes.
  rewrite bind_run. unfold gets at 1. rewrite Hc.
  rewrite bind_run. unfold modify at 1.
  rewrite bind_run. unfold print at 1, emit at 1, modify at 1.
  rewrite bind_run. unfold gets at 1.
  set (w1 := add_event (EvPrint PrCleaningUp) (set_closing true w)).
  destruct (for_each_total V4.cleanup_one (running_services w1) V4_cleanup_one_total w1)
    as (w2 & H2).
  rewrite bind_run, H2.
  assert (Hq : quiet w1 w2).
  { change w2 with (world_of (Ok tt w2)). rewrite <- H2.
    apply preserves_for_each; [typeclasses eauto | apply quiet_cleanup_one]. }
  destruct Hq as [Hq1 Hq2].
  eexists. split; [reflexivity|]. world_simpl.
  split; [exact Hq1|]. split; [reflexivity|].
  unfold sweeps. world_simpl. rewrite map_app, List.filter_app, length_app. cbn.
  fold (sweeps (trace w2)). rewrite Hq2. subst w1. unfold sweeps. world_simpl.
  rewrite map_app, List.filter_app, length_app. cbn. lia.
Qed.

(** ** The registry under [stop_service] and stop-all *)

Lemma dict_get_del_other (k k' : string) (d : dict) :
  k <> k' -> dict_get k' (dict_del k d) = dict_get k' d.
Proof.
  intros Hne. induction d as [|[k0 v0] d IH]; cbn; [reflexivity|].
  destruct (String.eqb_spec k k0) as [->|Hk].
  - destruct (String.eqb_spec k' k0) as [->|Hk']; [congruence | exact IH].
  - cbn. destruct (String.eqb k' k0); [reflexivity | exact IH].
Qed.

(** What [V4.stop_service] does to the registry and to the flag, in
    every case. *)
Lemma V4_stop_registry (w : world) (name : string) :
  exists w',
    V4.stop_service name w = Ok tt w'
    /\ running_services w' = dict_del name (running_services w)
    /\ is_closing w' = is_closing w.
Proof.
  assert (Hq : quiet w (world_of (V4.stop_service name w)))
    by apply quiet_stop_service.
  destruct Hq as [Hc _]. revert Hc.
  rewrite V4_stop_unfold.
  destruct (dict_get name (running_services w)) as [p|] eqn:Hg.
  2:{ intros Hc. eexists. split; [reflexivity|]. split; [|exact Hc]. world_simpl.
      symmetry. apply dict_del_absent. unfold dict_mem. rewrite Hg. reflexivity. }
  unfold try_except. rewrite bind_run.
  pose proof (stop_signals_ends w p) as H.
  destruct (signal_failure w p) as [e|].
  - destruct H as (w1 & -> & Hrs & _). rewrite stop_handler_run.
    intros Hc. eexists. split; [reflexivity|]. split; [|exact Hc].
    world_simpl. rewrite Hrs. reflexivity.
  - destruct H as (w1 & -> & Hrs & _).
    rewrite stop_epilogue_run by exact (dict_get_mem _ _ _ _ Hg Hrs).
    intros Hc. eexists. split; [reflexivity|]. split; [|exact Hc].
    rewrite stopped_running_services, Hrs. reflexivity.
Qed.

Lemma dict_del_all_keys (names : list string) (d : dict) :
  (forall k, dict_mem k d = true -> In k names) -> dict_del_all names d = [].
Proof.
  revert d. induction names as [|k names IH]; intros d Hin; cbn.
  - destruct d as [|[k v] d]; [reflexivity|].
    exfalso. apply (Hin k). unfold dict_mem. cbn. rewrite String.eqb_refl. reflexivity.
  - apply IH. intros k' Hk'.
    destruct (String.eqb_spec k k') as [<-|Hne].
    + rewrite dict_mem_del in Hk'. discriminate.
    + assert (Hm : dict_mem k' d = true).
      { unfold dict_mem in *. rewrite dict_get_del_other in Hk' by exact Hne. exact Hk'. }
      destruct (Hin k' Hm) as [->|H]; [contradiction | exact H].
Qed.

Lemma dict_mem_keys (k : string) (d : dict) :
  dict_mem k d = true -> In k (dict_keys d).
Proof.
  unfold dict_mem, dict_keys. induction d as [|[k' v'] d IH]; cbn; [discriminate|].
  destruct (String.eqb_spec k k') as [->|Hne]; [auto | intros H; right; apply IH, H].
Qed.

(** The loop of [stop_all_services]. *)
Lemma V4_stop_each (names : list string) (w : world) :
  exists w',
    for_each names V4.stop_service w = Ok tt w'
    /\ running_services w' = dict_del_all names (running_services w)
    /\ is_closing w' = is_closing w.
Proof.
  revert w. induction names as [|name names IH]; intros w.
  - exists w. auto.
  - destruct (V4_stop_registry w name) as (w1 & H1 & Hrs1 & Hc1).
    destruct (IH w1) as (w2 & H2 & Hrs2 & Hc2).
    exists w2. cbn [for_each]. rewrite bind_run, H1.
    split; [exact H2|]. split; [|congruence].
    rewrite Hrs2, Hrs1. reflexivity.
Qed.

(** ** C2: at most one sweep *)

#[global] Instance keeps_sweeps_ok_preorder : PreOrder keeps_sweeps_ok.
Proof. split; unfold keeps_sweeps_ok; [intros w; auto | intros w1 w2 w3; auto]. Qed.







(** No entry point clears the closing flag. *)
Definition closing_stays (w w' : world) : Prop :=
  is_closing w = true -> is_closing w' = true.

#[global] Instance closing_stays_preorder : PreOrder closing_stays.
Proof. split; unfold closing_stays; [intros w; auto | intros w1 w2 w3; auto]. Qed.









(** What happens there: both children are signalled, by two stop-all
    sweeps, and no teardown sweep is begun. *)
Example V4_two_stop_all_sweeps :
  let w := world_of (session [ActStart "a.py"; ActStopAll;
                              ActStart "b.py"; ActStopAll]
                       (unix_world polite permitted)) in
  events w = [EvPopen "a.py" true; EvLog (MsgStarted "a.py" 100);
              EvKillpg 100 SIGTERM; EvWait 100 (Some 5);
              EvLog (MsgStopped "a.py");
              EvPopen "b.py" true; EvLog (MsgStarted "b.py" 101);
              EvKillpg 101 SIGTERM; EvWait 101 (Some 5);
              EvLog (MsgStopped "b.py")]
  /\ is_closing w = false
  /\ sweeps (trace w) = 0%nat.
Proof. vm_compute. auto. Qed.

(** A session with two stop-all sweeps, a close, the exit hook and a
    signal: the teardown sweep runs once, and the calls after it add
    nothing but the line printed by the signal handler. *)
Example V4_second_cleanup_is_silent :
  let w := world_of (session [ActStart "a.py"; ActClose]
                       (unix_world stubborn permitted)) in
  events w = [EvPopen "a.py" true; EvLog (MsgStarted "a.py" 100);
              EvPrint PrCleaningUp; EvPrint (PrTerminating "a.py");
              EvKill 100 SIGTERM; EvWait 100 (Some 3);
              EvPrint (PrForceKilling "a.py");
              EvKill 100 SIGKILL; EvWait 100 None; EvPrint PrAllCleanedUp]
  /\ session [ActExitHook; ActClose; ActStopAll; ActExitHook] w = Ok tt w.
Proof. vm_compute. auto. Qed.

(** ** C10: a start after the shutdown has begun *)

Lemma started_proc_running (name : string) (ign : bool) (w : world) :
  proc_running (V4.started name ign w) (next_pid w) = true.
Proof.
  unfold proc_running, V4.started.
  destruct (mem_string name (services_list w)); world_simpl;
    rewrite lookup_insert_eq; reflexivity.
Qed.

Lemma started_is_closing (name : string) (ign : bool) (w : world) :
  is_closing (V4.started name ign w) = is_closing w.
Proof.
  unfold V4.started. destruct (mem_string name (services_list w)); reflexivity.
Qed.

(** C10: in claude_v4.py, once the closing flag is set, [stop_all_services],
    [cleanup_all_processes] and [closeEvent] return at once and change
    nothing; [start_service] for an unregistered name that can be spawned
    still spawns and registers the child; and no sequence of those three
    calls made afterwards stops it: the child is still running and still
    registered. *)
Theorem V4_start_after_shutdown_survives (w : world) (name : string) (ign : bool) :
  is_closing w = true ->
  dict_mem name (running_services w) = false ->
  spawn_oracle w name = Spawns ign ->
  (forall a, is_shutdown_call a = true -> perform a w = Ok tt w)
  /\ exists w1,
      V4.start_service name w = Ok tt w1
      /\ dict_get name (running_services w1) = Some (next_pid w)
      /\ proc_running w1 (next_pid w) = true
      /\ forall calls,
          forallb is_shutdown_call calls = true ->
          session calls w1 = Ok tt w1.
Proof.
  intros Hc Hm Hs. split.
  { intros a Ha. apply shutdown_call_closing; assumption. }
  exists (V4.started name ign w).
  split; [apply V4_start_spawns; assumption|].
  split; [rewrite started_running_services; apply dict_get_set_eq|].
  split; [apply started_proc_running|].
  intros calls. induction calls as [|a calls IH]; intros Hall.
  - reflexivity.
  - cbn [forallb] in Hall. apply andb_true_iff in Hall as [Ha Hall].
    unfold session. cbn [for_each]. rewrite bind_run.
    rewrite shutdown_call_closing;
      [apply IH, Hall | exact Ha | rewrite started_is_closing; exact Hc].
Qed.

Lemma V4_start_after_shutdown_survives_witness :
  let w := world_of (V4.cleanup_all_processes (unix_world polite permitted)) in
  (forall a, is_shutdown_call a = true -> perform a w = Ok tt w)
  /\ exists w1,
      V4.start_service "a.py" w = Ok tt w1
      /\ dict_get "a.py" (running_services w1) = Some 100
      /\ proc_running w1 100 = true
      /\ forall calls,
          forallb is_shutdown_call calls = true ->
          session calls w1 = Ok tt w1.
Proof.
  exact (V4_start_after_shutdown_survives
           (world_of (V4.cleanup_all_processes (unix_world polite permitted)))
           "a.py" false eq_refl eq_refl eq_refl).
Defined.

(** ** C9: the thread that runs the lifecycle operations *)

#[global] Instance on_caller_thread_preorder : PreOrder on_caller_thread.
Proof.
  split.
  - intros w. exists []. apply emitted_refl.
  - intros w1 w2 w3 [es1 H1] [es2 H2]. exists (es1 ++ es2).
    eapply emitted_trans; eassumption.
Qed.

Lemma caller_emit (e : event) : preserves on_caller_thread (emit e).
Proof. intros w. exists [e]. split; reflexivity. Qed.

Ltac caller_tac :=
  repeat first
    [ frame_step
    | apply caller_emit
    | apply preserves_modify; intros ?; exists [];
      split; [world_simpl; symmetry; apply app_nil_r | reflexivity] ].

Lemma caller_send_signal (p : pid) (sg : signal) :
  preserves on_caller_thread (send_signal p sg).
Proof. unfold send_signal, poll_is_None, os_kill. caller_tac. Qed.

Lemma caller_wait (p : pid) (t : option Z) : preserves on_caller_thread (wait p t).
Proof. unfold wait, poll_is_None. caller_tac. Qed.

Lemma caller_start_service (name : string) :
  preserves on_caller_thread (V4.start_service name).
Proof.
  unfold V4.start_service, Popen, update_service_status, log_status. caller_tac.
Qed.

Lemma caller_stop_service (name : string) :
  preserves on_caller_thread (V4.stop_service name).
Proof.
  unfold V4.stop_service, del_running_service, update_service_status, log_status,
    getpgid, killpg, terminate, kill.
  caller_tac; first [apply caller_send_signal | apply caller_wait].
Qed.

Lemma caller_lifecycle (a : action) :
  is_lifecycle a = true -> preserves on_caller_thread (perform a).
Proof.
  intros Ha. destruct a; try discriminate Ha; cbn [perform].
  - apply caller_start_service.
  - apply caller_stop_service.
  - destruct item; [apply caller_start_service | caller_tac].
  - destruct item; [apply caller_stop_service | caller_tac].
  - unfold V4.start_all_services. caller_tac. apply caller_start_service.
  - unfold V4.stop_all_services. caller_tac. apply caller_stop_service.
Qed.

(** What a thread adds to the trace carries its stamp. *)
Lemma emitted_stamp (t : thread) (w w' : world) (es : list event) :
  emitted (set_cur_thread t w) w' es ->
  trace w' = trace w ++ map (pair t) es /\ cur_thread w' = t.
Proof. intros [H1 H2]. split; [exact H1 | exact H2]. Qed.

(** The statement can fail: it does for a stop that is handed to a
    worker thread, [start_thread 0 (V4.stop_service name)].  Such a stop
    is off the thread of the user interface, as C9 wants every operation
    to be, and it is not executed by its caller. *)
Lemma worker_stop_off_gui_thread (name : string) :
  off_gui_thread (start_thread 0 (V4.stop_service name)).
Proof.
  intros w th e Hw Hin _.
  destruct (caller_stop_service name (set_cur_thread (WorkerThread 0) w))
    as [es Hes].
  apply emitted_stamp in Hes as [Ht _].
  unfold new_trace, start_thread in Hin. cbn [world_of] in Hin.
  cbn [trace set_cur_thread] in Hin. rewrite Ht, drop_app_length in Hin.
  apply in_map_iff in Hin as (e' & He' & _). injection He' as <- _.
  discriminate.
Qed.

Example worker_stop_not_on_caller_thread :
  let w := world_of (V4.start_service "a.py" (unix_world stubborn permitted)) in
  ~ exists es,
      emitted w (world_of (start_thread 0 (V4.stop_service "a.py") w)) es.
Proof.
  intros w [es [Ht _]]. vm_compute in Ht.
  destruct es as [|e es]; [discriminate Ht|]. cbn in Ht.
  injection Ht as Hth _. discriminate Hth.
Qed.

(** C9, as amended: in claude_v4.py every lifecycle operation
    ([start_service], [stop_service], the handlers of the four buttons)
    is executed from its first to its last step by the thread that calls
    it: it starts no thread, and every call it makes, the blocking waits
    included, carries the stamp of the caller.  The handlers of the
    buttons are called by the event loop, so everything they do is done
    by the thread that serves the user interface. *)
Theorem V4_lifecycle_runs_on_caller_thread (a : action) (w : world) :
  is_lifecycle a = true ->
  (exists es, emitted w (world_of (perform a w)) es)
  /\ (is_button a = true ->
      exists es,
        trace (world_of (click (perform a) w))
        = trace w ++ map (pair GuiThread) es
        /\ cur_thread (world_of (click (perform a) w)) = GuiThread).
Proof.
  intros Ha. split; [apply (caller_lifecycle a Ha w)|].
  intros _. unfold click. rewrite bind_run. unfold modify at 1.
  destruct (caller_lifecycle a Ha (set_cur_thread GuiThread w)) as [es Hes].
  exists es. apply emitted_stamp, Hes.
Qed.

Lemma V4_lifecycle_runs_on_caller_thread_witness :
  let w := world_of (V4.start_service "a.py" (unix_world stubborn permitted)) in
  (exists es, emitted w (world_of (perform (ActStopSelected (Some "a.py")) w)) es)
  /\ (true = true ->
      exists es,
        trace (world_of (click (perform (ActStopSelected (Some "a.py"))) w))
        = trace w ++ map (pair GuiThread) es
        /\ cur_thread (world_of (click (perform (ActStopSelected (Some "a.py"))) w))
           = GuiThread).
Proof.
  exact (V4_lifecycle_runs_on_caller_thread (ActStopSelected (Some "a.py"))
           (world_of (V4.start_service "a.py" (unix_world stubborn permitted)))
           eq_refl).
Defined.

(** C9 as stated fails: the handler of the Stop button, called on the
    thread of the user interface, executes the bounded wait on that very
    thread. *)
Lemma V4_stop_button_blocks_gui_thread :
  ~ (forall a, is_lifecycle a = true -> off_gui_thread (perform a)).
Proof.
  intros H.
  apply (H (ActStopSelected (Some "a.py")) eq_refl
           (world_of (V4.start_service "a.py" (unix_world stubborn permitted)))
           GuiThread (EvWait 100 (Some 5))); [reflexivity| |reflexivity|reflexivity].
  vm_compute. auto.
Qed.

(** * Further properties of the code *)

(** ** The registry under [start_service] and [stop_service] *)

Lemma dict_del_set_absent (k : string) (v : pid) (d : dict) :
  dict_mem k d = false -> dict_del k (dict_set k v d) = d.
Proof.
  unfold dict_mem. induction d as [|[k' v'] d IH]; cbn.
  - rewrite String.eqb_refl. reflexivity.
  - destruct (String.eqb k k') eqn:E; [discriminate|].
    intros H. cbn. rewrite E, IH by exact H. reflexivity.
Qed.

(** A stop of an unregistered name only logs. *)
Lemma stop_service_not_running (w : world) (name : string) :
  dict_mem name (running_services w) = false ->
  V4.stop_service name w = Ok tt (add_event (EvLog (MsgNotRunning name)) w)
  /\ V3.stop_service name w = Ok tt (add_event (EvLog (MsgNotRunning name)) w).
Proof.
  intros H. unfold V4.stop_service, V3.stop_service, bind, gets.
  rewrite H. split; reflexivity.
Qed.

Lemma started_signal_failure (name : string) (ign : bool) (w : world) :
  sig_denied w (next_pid w) = false ->
  sig_denied w (host_pgid w) = false ->
  signal_failure (V4.started name ign w) (next_pid w) = None.
Proof.
  intros Hd1 Hd2. unfold signal_failure, V4.started.
  destruct (mem_string name (services_list w)); world_simpl;
    rewrite lookup_insert_eq; cbn [p_pgid p_status];
    destruct (has_killpg w), (has_setsid w); rewrite ?Hd1, ?Hd2, ?andb_false_r;
    reflexivity.
Qed.

(** X2: in claude_v4.py, a successful start of an unregistered name
    registers the new child, and the stop that follows always returns
    and leaves the registry exactly as it was before the start, whether
    or not the signals can be delivered; if they can, the child is gone
    and "Stopped" is logged. *)
Theorem V4_start_stop_round_trip (w : world) (name : string) (ign : bool) :
  dict_mem name (running_services w) = false ->
  spawn_oracle w name = Spawns ign ->
  exists w1 w2,
    V4.start_service name w = Ok tt w1
    /\ dict_get name (running_services w1) = Some (next_pid w)
    /\ V4.stop_service name w1 = Ok tt w2
    /\ running_services w2 = running_services w
    /\ (sig_denied w (next_pid w) = false ->
        sig_denied w (host_pgid w) = false ->
        proc_running w2 (next_pid w) = false
        /\ In (EvLog (MsgStopped name)) (events w2)).
Proof.
  intros Hm Hs. exists (V4.started name ign w).
  assert (Hg : dict_get name (running_services (V4.started name ign w))
               = Some (next_pid w))
    by (rewrite started_running_services; apply dict_get_set_eq).
  destruct (V4_stop_registry (V4.started name ign w) name) as (w2 & H2 & Hrs & _).
  exists w2. split; [apply V4_start_spawns; assumption|].
  split; [exact Hg|]. split; [exact H2|]. split.
  { rewrite Hrs, started_running_services. apply dict_del_set_absent, Hm. }
  intros Hd1 Hd2.
  destruct (V4_stop_success _ name _ Hg (started_signal_failure name ign w Hd1 Hd2))
    as (w1 & H2' & Hr).
  rewrite H2 in H2'. injection H2' as ->. split.
  - unfold proc_running. rewrite stopped_procs. exact Hr.
  - unfold events, V4.stopped.
    destruct (mem_string name (services_list w1)); world_simpl;
      rewrite map_app, in_app_iff; right; left; reflexivity.
Qed.

Lemma V4_start_stop_round_trip_witness :
  let w := unix_world stubborn permitted in
  exists w1 w2,
    V4.start_service "a.py" w = Ok tt w1
    /\ dict_get "a.py" (running_services w1) = Some 100
    /\ V4.stop_service "a.py" w1 = Ok tt w2
    /\ running_services w2 = []
    /\ (false = false -> false = false ->
        proc_running w2 100 = false
        /\ In (EvLog (MsgStopped "a.py")) (events w2)).
Proof.
  exact (V4_start_stop_round_trip (unix_world stubborn permitted) "a.py" true
           eq_refl eq_refl).
Defined.

(** What [V4.start_service] does to the registry, in every case. *)
Lemma V4_start_registry (w : world) (name : string) :
  running_services (world_of (V4.start_service name w)) = running_services w
  \/ (dict_mem name (running_services w) = false
      /\ running_services (world_of (V4.start_service name w))
         = dict_set name (next_pid w) (running_services w)).
Proof.
  destruct (dict_mem name (running_services w)) eqn:Hm.
  - left. rewrite V4_start_registered by exact Hm. reflexivity.
  - destruct (spawn_oracle w name) as [e|ign] eqn:Hs.
    + left. rewrite (V4_start_spawn_fails _ _ e) by assumption. reflexivity.
    + right. split; [reflexivity|].
      rewrite (V4_start_spawns _ _ ign) by assumption. cbn [world_of].
      apply started_running_services.
Qed.

(** X3: in claude_v4.py, neither [start_service] nor [stop_service]
    changes the registry entry of any other name. *)
Theorem V4_other_entries_untouched (w : world) (name other : string) :
  name <> other ->
  dict_get other (running_services (world_of (V4.start_service name w)))
    = dict_get other (running_services w)
  /\ dict_get other (running_services (world_of (V4.stop_service name w)))
    = dict_get other (running_services w).
Proof.
  intros Hne. split.
  - destruct (V4_start_registry w name) as [->|[_ ->]]; [reflexivity|].
    apply dict_get_set_ne, Hne.
  - destruct (V4_stop_registry w name) as (w' & -> & Hrs & _). cbn [world_of].
    rewrite Hrs. apply dict_get_del_other, Hne.
Qed.

Lemma V4_other_entries_untouched_witness :
  let w := world_of (V4.start_service "a.py" (unix_world polite permitted)) in
  dict_get "a.py" (running_services (world_of (V4.start_service "b.py" w)))
    = dict_get "a.py" (running_services w)
  /\ dict_get "a.py" (running_services (world_of (V4.stop_service "b.py" w)))
    = dict_get "a.py" (running_services w).
Proof.
  exact (V4_other_entries_untouched
           (world_of (V4.start_service "a.py" (unix_world polite permitted)))
           "b.py" "a.py" ltac:(discriminate)).
Defined.

(** ** Stop-all *)

(** X4: in claude_v4.py, with the closing flag clear,
    [stop_all_services] always returns, leaves the registry empty (an
    entry is dropped even when its stop fails) and does not set the
    flag. *)
Theorem V4_stop_all_empties_registry (w : world) :
  is_closing w = false ->
  exists w',
    V4.stop_all_services w = Ok tt w'
    /\ running_services w' = []
    /\ is_closing w' = false.
Proof.
  intros Hc. unfold V4.stop_all_services. rewrite bind_run. unfold gets at 1.
  rewrite Hc, bind_run. unfold gets at 1.
  destruct (V4_stop_each (dict_keys (running_services w)) w) as (w' & H & Hrs & Hc').
  exists w'. split; [exact H|]. split; [|congruence].
  rewrite Hrs. apply dict_del_all_keys. intros k. apply dict_mem_keys.
Qed.

Lemma V4_stop_all_empties_registry_witness :
  exists w',
    V4.stop_all_services
      (world_of ((V4.start_service "a.py" ;; V4.start_service "b.py")%py
                   (unix_world stubborn (denied_for 101)))) = Ok tt w'
    /\ running_services w' = []
    /\ is_closing w' = false.
Proof.
  exact (V4_stop_all_empties_registry
           (world_of ((V4.start_service "a.py" ;; V4.start_service "b.py")%py
                        (unix_world stubborn (denied_for 101)))) eq_refl).
Defined.

(** ** claude_v3.py: [stop_service] *)

(** X5: in claude_v3.py, [stop_service] for a registered name always
    returns; the entry is removed if the child is not running
    afterwards, and otherwise the registry is unchanged and a failure is
    logged: an entry is kept exactly for a child that is still running. *)
Theorem V3_stop_keeps_entry_iff_running (w : world) (name : string) (p : pid) :
  dict_get name (running_services w) = Some p ->
  exists w',
    V3.stop_service name w = Ok tt w'
    /\ running_services w'
       = (if proc_running w' p then running_services w
          else dict_del name (running_services w))
    /\ (proc_running w' p = true ->
        exists e, In (EvLog (MsgFailedStop name e)) (events w')).
Proof.
  intros Hg.
  assert (Hm : dict_mem name (running_services w) = true)
    by (unfold dict_mem; rewrite Hg; reflexivity).
  unfold V3.stop_service. rewrite bind_run. unfold gets at 1. rewrite Hm. cbn [negb].
  unfold try_except. rewrite bind_run. unfold gets at 1. rewrite bind_run, Hg.
  unfold ret at 1. rewrite bind_run. unfold terminate. rewrite send_signal_run.
  assert (Htail : forall w1,
            running_services w1 = running_services w ->
            proc_running w1 p = false ->
            exists w',
              (del_running_service name ;;
               update_service_status name false ;;
               log_status (MsgStopped name))%py w1 = Ok tt w'
              /\ running_services w' = dict_del name (running_services w)
              /\ proc_running w' p = false).
  { intros w1 Hrs Hr.
    pose proof (stop_epilogue_run name w1 (dict_get_mem _ _ _ _ Hg Hrs)) as He.
    unfold stop_epilogue in He. rewrite He. eexists. split; [reflexivity|].
    split; [rewrite stopped_running_services, Hrs; reflexivity|].
    unfold proc_running. rewrite stopped_procs. exact Hr. }
  destruct (procs w !! p) as [pr|] eqn:Hp.
  - destruct (bool_decide (p_status pr = Running)) eqn:Hs.
    + destruct (sig_denied w p) eqn:Hd.
      * (* the signal is refused *)
        unfold log_status, emit, modify.
        eexists. split; [reflexivity|]. running_at Hp. rewrite Hs.
        split; [reflexivity|]. intros _. exists PermissionError.
        unfold events. world_simpl. rewrite !map_app, !in_app_iff.
        right. left. reflexivity.
      * pose proof (lookup_insert_eq (procs w) p (deliver SIGTERM pr)) as Hp1.
        rewrite bind_run, wait_run. running_at Hp1.
        destruct (bool_decide (p_status (deliver SIGTERM pr) = Running)) eqn:Hr.
        -- (* the child outlasts the wait *)
           unfold log_status, emit, modify.
           eexists. split; [reflexivity|]. world_simpl. rewrite Hp1, Hr.
           split; [reflexivity|]. intros _. exists TimeoutExpired.
           unfold events. world_simpl. rewrite !map_app, !in_app_iff.
           right. left. reflexivity.
        -- (* the child exits in time *)
           edestruct Htail as (w' & Hrun & Hrs' & Hr'); [| |rewrite Hrun].
           { reflexivity. }
           { running_at Hp1. exact Hr. }
           exists w'. split; [reflexivity|]. fold (proc_running w' p).
           rewrite Hr'. split; [exact Hrs' | discriminate].
    + rewrite bind_run, wait_run. running_at Hp. rewrite Hs.
      edestruct Htail as (w' & Hrun & Hrs' & Hr'); [| |rewrite Hrun].
      { reflexivity. }
      { running_at Hp. exact Hs. }
      exists w'. split; [reflexivity|]. fold (proc_running w' p).
      rewrite Hr'. split; [exact Hrs' | discriminate].
  - rewrite bind_run, wait_run. running_at Hp.
    edestruct Htail as (w' & Hrun & Hrs' & Hr'); [| |rewrite Hrun].
    { reflexivity. }
    { running_at Hp. reflexivity. }
    exists w'. split; [reflexivity|]. fold (proc_running w' p).
    rewrite Hr'. split; [exact Hrs' | discriminate].
Qed.

Lemma V3_stop_keeps_entry_iff_running_witness :
  let w := world_of (V3.start_service "a.py" (unix_world stubborn permitted)) in
  exists w',
    V3.stop_service "a.py" w = Ok tt w'
    /\ running_services w'
       = (if proc_running w' 100 then running_services w
          else dict_del "a.py" (running_services w))
    /\ (proc_running w' 100 = true ->
        exists e, In (EvLog (MsgFailedStop "a.py" e)) (events w')).
Proof.
  exact (V3_stop_keeps_entry_iff_running
           (world_of (V3.start_service "a.py" (unix_world stubborn permitted)))
           "a.py" 100 eq_refl).
Defined.

(** ** [cleanup_all_processes]: what the sweep does to the children *)

(** One round of the loop: it returns; a child that may be signalled is
    not running afterwards; no child comes back to life; no other
    process is touched. *)
Lemma V4_cleanup_one_effect (name : string) (p : pid) (w : world) :
  exists w',
    V4.cleanup_one (name, p) w = Ok tt w'
    /\ running_services w' = running_services w
    /\ sig_denied w' = sig_denied w
    /\ (forall q, q <> p -> procs w' !! q = procs w !! q)
    /\ (proc_running w' p = true -> proc_running w p = true)
    /\ (sig_denied w p = false -> proc_running w' p = false).
Proof.
  unfold V4.cleanup_one, try_except.
  rewrite bind_run. unfold poll_is_None at 1, bind at 1, gets at 1, ret at 1.
  destruct (procs w !! p) as [pr|] eqn:Hp.
  2:{ exists w. repeat split; auto. intros _. running_at Hp. reflexivity. }
  destruct (bool_decide (p_status pr = Running)) eqn:Hs.
  2:{ exists w. repeat split; auto. intros _. running_at Hp. exact Hs. }
  assert (Hrun : proc_running w p = true) by (running_at Hp; exact Hs).
  rewrite bind_run. unfold print at 1, emit at 1, modify at 1.
  rewrite bind_run. unfold terminate. rewrite send_signal_run. world_simpl.
  rewrite Hp, Hs.
  destruct (sig_denied w p) eqn:Hd.
  { unfold print, emit, modify. eexists. split; [reflexivity|].
    repeat split; auto. discriminate. }
  unfold try_except_timeout, try_except.
  pose proof (lookup_insert_eq (procs w) p (deliver SIGTERM pr)) as Hp1.
  pose proof (lookup_insert_eq (<[p := deliver SIGTERM pr]> (procs w)) p
                (deliver SIGKILL (deliver SIGTERM pr))) as Hp2.
  rewrite wait_run; running_at Hp1.
  destruct (bool_decide (p_status (deliver SIGTERM pr) = Running)) eqn:Hr.
  - cbn [is_TimeoutExpired]. rewrite bind_run. unfold print at 1, emit at 1, modify at 1.
    rewrite bind_run. unfold kill. rewrite send_signal_run. world_simpl.
    rewrite Hp1, Hr, Hd.
    rewrite wait_run; running_at Hp2; rewrite deliver_kill_status.
    cbn [bool_decide decide_rel].
    eexists. split; [reflexivity|]. world_simpl.
    split; [reflexivity|]. split; [reflexivity|]. split; [|split].
    + intros q Hq. rewrite !lookup_insert_ne by congruence. reflexivity.
    + intros _. first [exact Hrun | reflexivity | rewrite ?Hp; exact Hs].
    + intros _. rewrite Hp2, deliver_kill_status. reflexivity.
  - eexists. split; [reflexivity|]. world_simpl.
    split; [reflexivity|]. split; [reflexivity|]. split; [|split].
    + intros q Hq. rewrite lookup_insert_ne by congruence. reflexivity.
    + intros _. first [exact Hrun | reflexivity | rewrite ?Hp; exact Hs].
    + intros _. rewrite Hp1. exact Hr.
Qed.

Lemma V4_cleanup_loop (items : dict) (w : world) :
  exists w',
    for_each items V4.cleanup_one w = Ok tt w'
    /\ running_services w' = running_services w
    /\ sig_denied w' = sig_denied w
    /\ (forall q, (forall n, ~ In (n, q) items) -> procs w' !! q = procs w !! q)
    /\ (forall q, proc_running w' q = true -> proc_running w q = true)
    /\ (forall n p, In (n, p) items -> sig_denied w p = false ->
                    proc_running w' p = false).
Proof.
  revert w. induction items as [|[name p] items IH]; intros w.
  - exists w. repeat split; auto. intros n p [].
  - destruct (V4_cleanup_one_effect name p w)
      as (w1 & H1 & Hrs1 & Hd1 & Ho1 & Hm1 & Hk1).
    destruct (IH w1) as (w2 & H2 & Hrs2 & Hd2 & Ho2 & Hm2 & Hk2).
    assert (Hmono1 : forall q, proc_running w1 q = true -> proc_running w q = true).
    { intros q. destruct (Z.eq_dec q p) as [->|Hne]; [exact Hm1|].
      unfold proc_running. rewrite (Ho1 q Hne). auto. }
    exists w2. cbn [for_each]. rewrite bind_run, H1.
    split; [exact H2|]. split; [congruence|]. split; [congruence|].
    split; [|split].
    + intros q Hq. rewrite Ho2, Ho1; [reflexivity| |].
      * intros ->. apply (Hq name). left. reflexivity.
      * intros n Hin. apply (Hq n). right. exact Hin.
    + intros q Hq. apply Hmono1, Hm2, Hq.
    + intros n q [Heq|Hin] Hd.
      * injection Heq as -> ->.
        destruct (proc_running w2 q) eqn:Hr; [|reflexivity].
        apply Hm2 in Hr. rewrite (Hk1 Hd) in Hr. discriminate.
      * apply (Hk2 n q Hin). rewrite Hd1. exact Hd.
Qed.

(** The whole sweep: the loop between the two updates of the window's
    state. *)
Lemma V4_cleanup_effect (w : world) :
  is_closing w = false ->
  exists w',
    V4.cleanup_all_processes w = Ok tt w'
    /\ is_closing w' = true
    /\ running_services w' = []
    /\ sig_denied w' = sig_denied w
    /\ (forall q, proc_running w' q = true -> proc_running w q = true)
    /\ (forall name p, In (name, p) (running_services w) ->
                       sig_denied w p = false -> proc_running w' p = false)
    /\ (forall q, (forall name, ~ In (name, q) (running_services w)) ->
                  procs w' !! q = procs w !! q).
Proof.
  intros Hc. unfold V4.cleanup_all_processes.
  rewrite bind_run. unfold gets at 1. rewrite Hc.
  rewrite bind_run. unfold modify at 1.
  rewrite bind_run. unfold print at 1, emit at 1, modify at 1.
  rewrite bind_run. unfold gets at 1.
  set (w1 := add_event (EvPrint PrCleaningUp) (set_closing true w)).
  destruct (V4_cleanup_loop (running_services w1) w1)
    as (w2 & H2 & Hrs & Hd & Ho & Hm & Hk).
  assert (Hq : quiet w1 w2).
  { change w2 with (world_of (Ok tt w2)). rewrite <- H2.
    apply preserves_for_each; [typeclasses eauto | apply quiet_cleanup_one]. }
  rewrite bind_run, H2. unfold modify, print, emit, bind.
  eexists. split; [reflexivity|]. world_simpl.
  split; [exact (proj1 Hq)|]. split; [reflexivity|].
  split; [exact Hd|]. split; [|split].
  - intros q Hr. apply (Hm q). exact Hr.
  - intros name p Hin Hden. unfold proc_running. world_simpl.
    apply (Hk name p Hin Hden).
  - intros q Hq'. apply (Ho q Hq').
Qed.

(** X6: in claude_v4.py, with the closing flag clear,
    [cleanup_all_processes] returns with the flag set and the registry
    empty; every registered child that may be signalled is not running
    afterwards; and a process that is not itself registered (such as one
    forked by a child) is left exactly as it was: the sweep signals the
    children only, never their groups. *)
Theorem V4_cleanup_stops_registered_children (w : world) :
  is_closing w = false ->
  exists w',
    V4.cleanup_all_processes w = Ok tt w'
    /\ is_closing w' = true
    /\ running_services w' = []
    /\ (forall name p, In (name, p) (running_services w) ->
                       sig_denied w p = false -> proc_running w' p = false)
    /\ (forall q, (forall name, ~ In (name, q) (running_services w)) ->
                  procs w' !! q = procs w !! q).
Proof.
  intros Hc.
  destruct (V4_cleanup_effect w Hc) as (w' & H & Hc' & Hrs & _ & _ & Hk & Ho).
  exists w'. auto.
Qed.

Lemma V4_cleanup_stops_registered_children_witness :
  exists w',
    V4.cleanup_all_processes
      (world_of (V4.start_service "a.py" (unix_world stubborn permitted)))
    = Ok tt w'
    /\ is_closing w' = true
    /\ running_services w' = []
    /\ (forall name p, In (name, p) [("a.py", 100)] ->
                       false = false -> proc_running w' p = false)
    /\ (forall q, (forall name, ~ In (name, q) [("a.py", 100)]) ->
                  procs w' !! q
                  = procs (world_of (V4.start_service "a.py"
                                       (unix_world stubborn permitted))) !! q).
Proof.
  exact (V4_cleanup_stops_registered_children
           (world_of (V4.start_service "a.py" (unix_world stubborn permitted)))
           eq_refl).
Defined.

(** ** [start_all_services] and the sweep at session start *)

Lemma V4_start_keeps_entry (w : world) (name n : string) (p : pid) :
  dict_get n (running_services w) = Some p ->
  dict_get n (running_services (world_of (V4.start_service name w))) = Some p.
Proof.
  intros Hg. destruct (String.eqb_spec name n) as [->|Hne].
  - rewrite V4_start_registered; [exact Hg|].
    unfold dict_mem. rewrite Hg. reflexivity.
  - destruct (V4_start_registry w name) as [->|[_ ->]]; [exact Hg|].
    rewrite dict_get_set_ne by exact Hne. exact Hg.
Qed.

Lemma V4_start_sweep_keeps_entry (names : list string) (w : world) (n : string)
    (p : pid) :
  dict_get n (running_services w) = Some p ->
  dict_get n (running_services (world_of (for_each names V4.start_service w)))
  = Some p.
Proof.
  revert w. induction names as [|name names IH]; intros w Hg; [exact Hg|].
  cbn [for_each]. rewrite bind_run.
  pose proof (V4_start_keeps_entry w name n p Hg) as H1.
  destruct (V4_start_total w name) as (w1 & Hw1). rewrite Hw1 in *.
  apply IH, H1.
Qed.

(** X7: in claude_v4.py, [start_all_services] calls [start_service]
    once for every item of the list, in order; afterwards a name is
    registered exactly if it was registered before or is an item whose
    spawn succeeded, and a service that was registered keeps its
    process. *)
Theorem V4_start_all_registers_listed (w : world) :
  exists w' es,
    V4.start_all_services w = Ok tt w'
    /\ emitted w w' es
    /\ omap log_subject es = services_list w
    /\ (forall n,
          dict_mem n (running_services w') = true
          <-> dict_mem n (running_services w) = true
              \/ (In n (services_list w)
                  /\ exists ign, spawn_oracle w n = Spawns ign))
    /\ (forall n p,
          dict_get n (running_services w) = Some p ->
          dict_get n (running_services w') = Some p).
Proof.
  unfold V4.start_all_services. rewrite bind_run. unfold gets at 1.
  destruct (V4_start_sweep (services_list w) w) as (w' & es & H & He & Hl & _ & Hr).
  exists w', es. split; [exact H|]. split; [exact He|]. split; [exact Hl|].
  split; [exact Hr|]. intros n p Hg.
  pose proof (V4_start_sweep_keeps_entry (services_list w) w n p Hg) as Hk.
  rewrite H in Hk. exact Hk.
Qed.

(** A start in a window whose list widget is empty changes no marker. *)
Lemma V4_start_no_items (w : world) (name : string) :
  services_list w = [] ->
  exists w' es,
    V4.start_service name w = Ok tt w'
    /\ emitted w w' es
    /\ forallb (fun e => negb (is_status_update e)) es = true
    /\ services_list w' = [].
Proof.
  intros Hl. destruct (dict_mem name (running_services w)) eqn:Hm.
  - rewrite V4_start_registered by exact Hm.
    eexists. exists [EvLog (MsgAlreadyRunning name)].
    split; [reflexivity|]. split; [emitted_now|]. split; [reflexivity | exact Hl].
  - destruct (spawn_oracle w name) as [e|ign] eqn:Hs.
    + rewrite (V4_start_spawn_fails _ _ e) by assumption.
      eexists. exists [EvPopen name (has_setsid w); EvLog (MsgFailedStart name e)].
      split; [reflexivity|]. split; [emitted_now|]. split; [reflexivity | exact Hl].
    + rewrite (V4_start_spawns _ _ ign) by assumption.
      eexists. eexists. split; [reflexivity|].
      split; [apply started_emitted|]. rewrite Hl. cbn [mem_string].
      split; [reflexivity|]. unfold V4.started. rewrite Hl. exact Hl.
Qed.

Lemma V4_sweep_no_items (names : list string) (w : world) :
  services_list w = [] ->
  exists w' es,
    for_each names V4.start_service w = Ok tt w'
    /\ emitted w w' es
    /\ forallb (fun e => negb (is_status_update e)) es = true
    /\ services_list w' = [].
Proof.
  revert w. induction names as [|name names IH]; intros w Hl.
  - exists w, []. split; [reflexivity|]. split; [apply emitted_refl|]. auto.
  - destruct (V4_start_no_items w name Hl) as (w1 & es1 & H1 & He1 & Hq1 & Hl1).
    destruct (IH w1 Hl1) as (w2 & es2 & H2 & He2 & Hq2 & Hl2).
    exists w2, (es1 ++ es2). cbn [for_each]. rewrite bind_run, H1.
    split; [exact H2|]. split; [eapply emitted_trans; eassumption|].
    split; [|exact Hl2]. rewrite forallb_app, Hq1, Hq2. reflexivity.
Qed.

(** X8: in claude_v4.py, [MainWindow.__init__] runs the auto-start
    sweep before the list of microservices is filled, so it changes the
    marker of no list item, whatever it starts; afterwards the list holds
    the parsed microservices, the closing flag is clear and the exit hook
    is registered. *)
Theorem V4_init_updates_no_marker (w : world) (cfg : config) :
  exists w' es,
    V4.MainWindow_init cfg w = Ok tt w'
    /\ emitted w w' es
    /\ forallb (fun e => negb (is_status_update e)) es = true
    /\ services_list w' = parse_names (config_get cfg "microservices")
    /\ is_closing w' = false
    /\ atexit_registered w' = true.
Proof.
  unfold V4.MainWindow_init, V4.auto_start_services.
  set (w0 := set_services_list [] (set_atexit true (set_closing false (set_running [] w)))).
  destruct (V4_sweep_no_items (parse_names (config_get cfg "auto_start")) w0 eq_refl)
    as (w1 & es & H1 & He & Hq & Hl).
  assert (Hquiet : quiet w0 w1).
  { change w1 with (world_of (Ok tt w1)). rewrite <- H1.
    apply preserves_for_each; [typeclasses eauto | apply quiet_start_service]. }
  assert (Hat : atexit_registered w1 = true).
  { change w1 with (world_of (Ok tt w1)). rewrite <- H1.
    generalize (parse_names (config_get cfg "auto_start")). intros l.
    assert (G : forall v, atexit_registered v = true ->
                atexit_registered (world_of (for_each l V4.start_service v)) = true).
    { induction l as [|n l IH]; intros v Hv; [exact Hv|].
      cbn [for_each]. rewrite bind_run.
      destruct (V4_start_total v n) as (v1 & Hv1). rewrite Hv1. apply IH.
      destruct (dict_mem n (running_services v)) eqn:Hm.
      - rewrite V4_start_registered in Hv1 by exact Hm. injection Hv1 as <-. exact Hv.
      - destruct (spawn_oracle v n) as [e|ign] eqn:Hs.
        + rewrite (V4_start_spawn_fails _ _ e) in Hv1 by assumption.
          injection Hv1 as <-. exact Hv.
        + rewrite (V4_start_spawns _ _ ign) in Hv1 by assumption.
          injection Hv1 as <-. unfold V4.started.
          destruct (mem_string n (services_list v)); exact Hv. }
    apply G. reflexivity. }
  eexists. exists es. split.
  { unfold bind at 1 2 3 4 5, modify at 1 2 3 4. cbv beta iota. fold w0.
    rewrite H1. unfold load_microservices, bind, gets, modify. reflexivity. }
  split; [destruct He as [Ht Hc]; split; [exact Ht | exact Hc]|].
  split; [exact Hq|]. world_simpl. rewrite Hl.
  split; [reflexivity|]. split; [exact (proj1 Hquiet) | exact Hat].
Qed.

(** ** claude_v3.py: the signals it sends *)

#[global] Instance emits_only_preorder (Q : event -> bool) : PreOrder (emits_only Q).
Proof.
  split.
  - intros w. exists []. split; [apply emitted_refl | reflexivity].
  - intros w1 w2 w3 (es1 & H1 & Q1) (es2 & H2 & Q2). exists (es1 ++ es2).
    split; [eapply emitted_trans; eassumption|].
    rewrite forallb_app, Q1, Q2. reflexivity.
Qed.

Lemma emits_only_emit (Q : event -> bool) (e : event) :
  Q e = true -> preserves (emits_only Q) (emit e).
Proof.
  intros H w. exists [e]. split; [split; reflexivity|]. cbn. rewrite H. reflexivity.
Qed.

Ltac emits_tac :=
  repeat first
    [ frame_step
    | apply emits_only_emit; reflexivity
    | apply preserves_modify; intros ?; exists [];
      split; [split; [world_simpl; symmetry; apply app_nil_r | reflexivity]
             | reflexivity] ].

Lemma V3_stop_gentle (name : string) :
  preserves (emits_only gentle) (V3.stop_service name).
Proof.
  unfold V3.stop_service, del_running_service, update_service_status, log_status,
    terminate, send_signal, poll_is_None, os_kill, wait.
  emits_tac.
Qed.

Lemma V3_start_gentle (name : string) :
  preserves (emits_only gentle) (V3.start_service name).
Proof.
  unfold V3.start_service, Popen, update_service_status, log_status. emits_tac.
Qed.

(** X9: claude_v3.py never sends SIGKILL and never signals a process
    group: whatever [start_service], [stop_service], [stop_all_services]
    and [closeEvent] add to the trace contains no such call. *)
Theorem V3_sends_only_graceful_signals (name : string) (w : world) :
  emits_only gentle w (world_of (V3.start_service name w))
  /\ emits_only gentle w (world_of (V3.stop_service name w))
  /\ emits_only gentle w (world_of (V3.stop_all_services w))
  /\ emits_only gentle w (world_of (V3.closeEvent w)).
Proof.
  split; [apply V3_start_gentle|]. split; [apply V3_stop_gentle|].
  assert (H : preserves (emits_only gentle) V3.stop_all_services).
  { unfold V3.stop_all_services. emits_tac. apply V3_stop_gentle. }
  split; apply H.
Qed.

(** ** C4: signals to the control panel *)





(** The handler in three sessions: a window with one running service and
    its exit hook; the same after a close; no window at all. *)
Example V4_signal_handler_sessions :
  let w := world_of (V4.MainWindow_init one_service_config
                       (unix_world polite permitted)) in
  events (world_of (V4.signal_handler SIGTERM w))
  = [EvPopen "a.py" true; EvLog (MsgStarted "a.py" 100);
     EvPrint (PrReceivedSignal SIGTERM); EvPrint PrCleaningUp;
     EvPrint (PrTerminating "a.py"); EvKill 100 SIGTERM;
     EvWait 100 (Some 3); EvPrint PrAllCleanedUp]
  /\ events (world_of ((V4.closeEvent ;; V4.signal_handler SIGTERM)%py w))
     = [EvPopen "a.py" true; EvLog (MsgStarted "a.py" 100);
        EvPrint PrCleaningUp; EvPrint (PrTerminating "a.py");
        EvKill 100 SIGTERM; EvWait 100 (Some 3); EvPrint PrAllCleanedUp;
        EvPrint (PrReceivedSignal SIGTERM)]
  /\ events (world_of (V4.signal_handler SIGTERM (unix_world polite permitted)))
     = [EvPrint (PrReceivedSignal SIGTERM)].
Proof. vm_compute. auto. Qed.

(** ** The registry and the process table *)

#[global] Instance same_table_preorder : PreOrder same_table.
Proof.
  split.
  - intros w. split; [reflexivity | intros p; reflexivity].
  - intros w1 w2 w3 [H1 H2] [H3 H4]. split; [congruence|].
    intros p. rewrite H4. apply H2.
Qed.

#[global] Instance keeps_registry_ok_preorder : PreOrder keeps_registry_ok.
Proof. split; unfold keeps_registry_ok; [intros w; auto | intros w1 w2 w3; auto]. Qed.

Ltac table_same := split; [reflexivity | intros ?; reflexivity].

Lemma same_table_killpg (g : Z) (sg : signal) : preserves same_table (killpg g sg).
Proof.
  intros w. rewrite killpg_run.
  destruct (sig_denied w g); [table_same|].
  destruct (group_nonempty g (procs w)); [|table_same].
  split; [reflexivity|]. intros p. cbn [world_of]. world_simpl.
  rewrite lookup_fmap, fmap_is_Some. reflexivity.
Qed.

Lemma same_table_send_signal (p : pid) (sg : signal) :
  preserves same_table (send_signal p sg).
Proof.
  intros w. rewrite send_signal_run.
  destruct (procs w !! p) as [pr|] eqn:Hp; [|table_same].
  destruct (bool_decide (p_status pr = Running)); [|table_same].
  destruct (sig_denied w p); [table_same|].
  split; [reflexivity|]. intros q. cbn [world_of]. world_simpl.
  destruct (decide (p = q)) as [->|Hne].
  - rewrite lookup_insert_eq, Hp. split; eauto.
  - rewrite lookup_insert_ne by exact Hne. reflexivity.
Qed.

Lemma same_table_wait (p : pid) (t : option Z) : preserves same_table (wait p t).
Proof.
  intros w. rewrite wait_run.
  destruct (proc_running w p); [destruct t|]; table_same.
Qed.

Ltac table_tac :=
  repeat first
    [ frame_step
    | apply same_table_killpg
    | apply same_table_send_signal
    | apply same_table_wait
    | apply preserves_modify; intros ?; split; [reflexivity | intros ?; reflexivity] ].

Lemma same_table_stop_service (name : string) :
  preserves same_table (V4.stop_service name).
Proof.
  unfold V4.stop_service, del_running_service, update_service_status, log_status,
    getpgid, terminate, kill, emit.
  table_tac.
Qed.

Lemma same_table_cleanup : preserves same_table V4.cleanup_all_processes.
Proof.
  unfold V4.cleanup_all_processes, print, emit. table_tac.
  destruct x as [name p].
  unfold V4.cleanup_one, poll_is_None, print, terminate, kill, emit. table_tac.
Qed.

Lemma registry_ok_same_table (w w' : world) :
  same_table w w' ->
  (forall n p, dict_get n (running_services w') = Some p ->
               dict_get n (running_services w) = Some p) ->
  registry_ok w -> registry_ok w'.
Proof.
  intros [Hn Hd] Hsub (H1 & H2 & H3). split; [|split].
  - intros n p Hg. apply Hd, (H1 n), Hsub, Hg.
  - intros p Hp. rewrite Hn. apply H2, Hd, Hp.
  - intros n1 n2 p Hg1 Hg2. apply (H3 n1 n2 p); apply Hsub; assumption.
Qed.

Lemma dict_get_del_Some (k n : string) (p : pid) (d : dict) :
  dict_get n (dict_del k d) = Some p -> dict_get n d = Some p.
Proof.
  destruct (String.eqb_spec k n) as [->|Hne].
  - pose proof (dict_mem_del n d) as H. unfold dict_mem in H.
    intros Hg. rewrite Hg in H. discriminate.
  - rewrite dict_get_del_other by exact Hne. auto.
Qed.

Lemma registry_ok_stop (name : string) :
  preserves keeps_registry_ok (V4.stop_service name).
Proof.
  intros w. unfold keeps_registry_ok.
  apply registry_ok_same_table; [apply same_table_stop_service|].
  destruct (V4_stop_registry w name) as (w' & -> & Hrs & _). cbn [world_of].
  rewrite Hrs. intros n p. apply dict_get_del_Some.
Qed.

Lemma registry_ok_cleanup : preserves keeps_registry_ok V4.cleanup_all_processes.
Proof.
  intros w. unfold keeps_registry_ok.
  apply registry_ok_same_table; [apply same_table_cleanup|].
  destruct (is_closing w) eqn:Hc.
  - rewrite V4_cleanup_closing by exact Hc. auto.
  - destruct (V4_cleanup_runs w Hc) as (w' & -> & _ & Hrs & _). cbn [world_of].
    rewrite Hrs. intros n p Hg. discriminate Hg.
Qed.

Lemma registry_ok_start (name : string) :
  preserves keeps_registry_ok (V4.start_service name).
Proof.
  intros w Hok. destruct (dict_mem name (running_services w)) eqn:Hm.
  { rewrite V4_start_registered by exact Hm. exact Hok. }
  destruct (spawn_oracle w name) as [e|ign] eqn:Hs.
  { rewrite (V4_start_spawn_fails _ _ e) by assumption. exact Hok. }
  rewrite (V4_start_spawns _ _ ign) by assumption. cbn [world_of].
  destruct Hok as (H1 & H2 & H3).
  assert (Hfresh : forall n, dict_get n (running_services w) <> Some (next_pid w)).
  { intros n Hg. pose proof (H2 _ (H1 _ _ Hg)). lia. }
  assert (Hp : procs (V4.started name ign w)
               = <[next_pid w := mkProc (if has_setsid w then next_pid w
                                         else host_pgid w) Running ign []]> (procs w))
    by (unfold V4.started; destruct (mem_string name (services_list w)); reflexivity).
  assert (Hn : next_pid (V4.started name ign w) = next_pid w + 1)
    by (unfold V4.started; destruct (mem_string name (services_list w)); reflexivity).
  split; [|split]; rewrite ?Hp, ?Hn, ?started_running_services.
  - intros n p Hg. destruct (String.eqb_spec name n) as [->|Hne].
    + rewrite dict_get_set_eq in Hg. injection Hg as <-.
      rewrite lookup_insert_eq. eauto.
    + rewrite dict_get_set_ne in Hg by exact Hne.
      rewrite lookup_insert_ne; [apply (H1 n), Hg|].
      intros <-. apply (Hfresh n Hg).
  - intros p Hin. destruct (decide (next_pid w = p)) as [<-|Hne]; [lia|].
    rewrite lookup_insert_ne in Hin by exact Hne. pose proof (H2 p Hin). lia.
  - intros n1 n2 p Hg1 Hg2.
    destruct (String.eqb_spec name n1) as [->|Hne1];
      destruct (String.eqb_spec n1 n2) as [->|Hne2]; try reflexivity.
    + rewrite dict_get_set_eq in Hg1. injection Hg1 as <-.
      rewrite dict_get_set_ne in Hg2 by exact Hne2. destruct (Hfresh n2 Hg2).
    + rewrite dict_get_set_ne in Hg1 by exact Hne1.
      destruct (String.eqb_spec name n2) as [->|Hne3].
      * rewrite dict_get_set_eq in Hg2. injection Hg2 as <-. destruct (Hfresh n1 Hg1).
      * rewrite dict_get_set_ne in Hg2 by exact Hne3. apply (H3 n1 n2 p Hg1 Hg2).
Qed.

Lemma registry_ok_perform (a : action) : preserves keeps_registry_ok (perform a).
Proof.
  destruct a; cbn [perform].
  - apply registry_ok_start.
  - apply registry_ok_stop.
  - destruct item; [apply registry_ok_start | frame_lemma preserves_ret].
  - destruct item; [apply registry_ok_stop | frame_lemma preserves_ret].
  - unfold V4.start_all_services. repeat frame_step. apply registry_ok_start.
  - unfold V4.stop_all_services. repeat frame_step. apply registry_ok_stop.
  - unfold V4.closeEvent. repeat frame_step. apply registry_ok_cleanup.
  - apply registry_ok_cleanup.
  - unfold V4.signal_handler, V4.sys_exit, print, emit.
    repeat first
      [ frame_step
      | apply registry_ok_cleanup
      | apply preserves_modify; intros w Hok; exact Hok ].
Qed.

(** X11: in claude_v4.py, every sequence of starts, stops, button
    presses, window closes, exit hooks and signal handlers keeps the
    registry in order: every registered child is in the process table,
    and no two names share a child. *)
Theorem V4_session_keeps_registry_ok (acts : list action) (w : world) :
  registry_ok w -> registry_ok (world_of (session acts w)).
Proof.
  exact (preserves_for_each keeps_registry_ok acts perform registry_ok_perform w).
Qed.

Lemma unix_world_registry_ok (oracle : string -> spawn_outcome)
    (denied : Z -> bool) : registry_ok (unix_world oracle denied).
Proof.
  split; [|split].
  - intros n p H. discriminate H.
  - intros p [x H]. cbn in H. rewrite lookup_empty in H. discriminate H.
  - intros n1 n2 p H. discriminate H.
Qed.

Lemma V4_session_keeps_registry_ok_witness :
  registry_ok
    (world_of (session [ActStart "a.py"; ActStart "b.py"; ActStop "a.py";
                        ActStartAll; ActStopAll; ActStart "a.py"; ActClose]
                 (unix_world stubborn permitted))).
Proof.
  exact (V4_session_keeps_registry_ok
           [ActStart "a.py"; ActStart "b.py"; ActStop "a.py";
            ActStartAll; ActStopAll; ActStart "a.py"; ActClose]
           (unix_world stubborn permitted)
           (unix_world_registry_ok stubborn permitted)).
Defined.

(** X12: in claude_v4.py, with the registry in order, [stop_service]
    for a registered name either takes the ordinary path and ends with
    the child gone, or fails with [PermissionError] after the one
    graceful attempt, with no process changed: a refused signal is the
    only way a stop can fail. *)
Theorem V4_stop_fails_only_if_refused (w : world) (name : string) (p : pid) :
  registry_ok w ->
  dict_get name (running_services w) = Some p ->
  (exists w1, V4.stop_service name w = Ok tt (V4.stopped name w1)
              /\ proc_running w1 p = false)
  \/ (exists w',
        V4.stop_service name w = Ok tt w'
        /\ emitted w w' (signal_attempt w p SIGTERM
                         ++ [EvLog (MsgFailedStop name PermissionError)])
        /\ procs w' = procs w).
Proof.
  intros (H1 & _ & _) Hg. destruct (H1 name p Hg) as [pr Hp].
  destruct (signal_failure w p) as [e|] eqn:Hf.
  - right. assert (e = PermissionError) as ->.
    { unfold signal_failure in Hf. rewrite Hp in Hf.
      destruct (has_killpg w).
      - destruct (sig_denied w (p_pgid pr)); congruence.
      - destruct (bool_decide (p_status pr = Running) && sig_denied w p); congruence. }
    destruct (V4_stop_failure w name p _ Hg Hf) as (w' & H & He & _ & Hps).
    exists w'. auto.
  - left. apply (V4_stop_success w name p Hg Hf).
Qed.

Lemma V4_stop_fails_only_if_refused_witness :
  let w := world_of (V4.start_service "a.py" (unix_world polite (denied_for 100))) in
  (exists w1, V4.stop_service "a.py" w = Ok tt (V4.stopped "a.py" w1)
              /\ proc_running w1 100 = false)
  \/ (exists w',
        V4.stop_service "a.py" w = Ok tt w'
        /\ emitted w w' (signal_attempt w 100 SIGTERM
                         ++ [EvLog (MsgFailedStop "a.py" PermissionError)])
        /\ procs w' = procs w).
Proof.
  exact (V4_stop_fails_only_if_refused
           (world_of (V4.start_service "a.py" (unix_world polite (denied_for 100))))
           "a.py" 100
           (registry_ok_start "a.py" _
              (unix_world_registry_ok polite (denied_for 100)))
           eq_refl).
Defined.

(** ** Start twice, stop twice *)

Lemma started_sig_denied (name : string) (ign : bool) (w : world) :
  sig_denied (V4.started name ign w) = sig_denied w.
Proof.
  unfold V4.started. destruct (mem_string name (services_list w)); reflexivity.
Qed.

(** X1: in claude_v4.py, for a name that is not registered, can be
    spawned and may be signalled, start, start, stop, stop returns with
    the log lines "Started", "already running", "Stopped" and "not
    running" in this order, after exactly one call of [Popen], with the
    registry as it was before and the child gone. *)
Theorem V4_start_start_stop_stop (w : world) (name : string) (ign : bool) :
  dict_mem name (running_services w) = false ->
  spawn_oracle w name = Spawns ign ->
  sig_denied w (next_pid w) = false ->
  sig_denied w (host_pgid w) = false ->
  exists w' es,
    (V4.start_service name ;; V4.start_service name ;;
     V4.stop_service name ;; V4.stop_service name)%py w = Ok tt w'
    /\ emitted w w' es
    /\ omap log_of es = [MsgStarted name (next_pid w); MsgAlreadyRunning name;
                         MsgStopped name; MsgNotRunning name]
    /\ length (List.filter is_spawn es) = 1%nat
    /\ running_services w' = running_services w
    /\ proc_running w' (next_pid w) = false.
Proof.
  intros Hm Hs Hd1 Hd2.
  set (p := next_pid w). set (w1 := V4.started name ign w).
  assert (Hg1 : dict_get name (running_services w1) = Some p)
    by (subst w1; rewrite started_running_services; apply dict_get_set_eq).
  assert (Hm1 : dict_mem name (running_services w1) = true)
    by (unfold dict_mem; rewrite Hg1; reflexivity).
  set (w2 := add_event (EvLog (MsgAlreadyRunning name)) w1).
  assert (Hp2 : exists pr, procs w2 !! p = Some pr /\ p_status pr = Running
                           /\ p_ignores_term pr = ign).
  { subst w2 w1. unfold V4.started.
    destruct (mem_string name (services_list w)); world_simpl;
      rewrite lookup_insert_eq; eauto. }
  destruct Hp2 as (pr & Hp2 & Hst & Hig).
  assert (Hf2 : signal_failure w2 p = None)
    by apply (started_signal_failure name ign w Hd1 Hd2).
  destruct (stop_signals_delivered w2 p pr Hp2 Hst Hf2)
    as (w3 & Hrun & Hem & Hrs & Hsl & Hr & _).
  set (w4 := V4.stopped name w3).
  assert (Hrs4 : running_services w4 = running_services w).
  { subst w4. rewrite stopped_running_services, Hrs. subst w2 w1. world_simpl.
    rewrite started_running_services. apply dict_del_set_absent, Hm. }
  exists (add_event (EvLog (MsgNotRunning name)) w4). eexists.
  split.
  { rewrite bind_run, (V4_start_spawns w name ign Hm Hs). fold w1.
    rewrite bind_run, (V4_start_registered w1 name Hm1). fold w2.
    rewrite bind_run, V4_stop_unfold.
    replace (dict_get name (running_services w2)) with (Some p) by (symmetry; exact Hg1).
    unfold try_except. rewrite bind_run, Hrun.
    rewrite stop_epilogue_run by exact (dict_get_mem _ _ _ _ Hg1 Hrs). fold w4.
    apply (proj1 (stop_service_not_running w4 name
                    ltac:(rewrite Hrs4; exact Hm))). }
  split.
  { eapply emitted_trans; [apply (started_emitted name ign w)|].
    eapply emitted_trans; [instantiate (2 := w2); instantiate (1 := [_]);
                           subst w2; emitted_now|].
    eapply emitted_trans; [exact Hem|].
    eapply emitted_trans; [apply stopped_emitted|].
    instantiate (1 := [_]). emitted_now. }
  assert (Hb : bool_decide (p_status pr = Running) = true)
    by (apply bool_decide_eq_true; exact Hst).
  unfold signal_attempt. rewrite Hp2, Hb.
  split; [|split; [|split]].
  - destruct (mem_string name (services_list w)), (has_killpg w2),
      (p_ignores_term pr), (mem_string name (services_list w3)); reflexivity.
  - destruct (mem_string name (services_list w)), (has_killpg w2),
      (p_ignores_term pr), (mem_string name (services_list w3)); reflexivity.
  - exact Hrs4.
  - unfold proc_running. world_simpl. subst w4. rewrite stopped_procs. exact Hr.
Qed.

Lemma V4_start_start_stop_stop_witness :
  let w := unix_world stubborn permitted in
  exists w' es,
    (V4.start_service "a.py" ;; V4.start_service "a.py" ;;
     V4.stop_service "a.py" ;; V4.stop_service "a.py")%py w = Ok tt w'
    /\ emitted w w' es
    /\ omap log_of es = [MsgStarted "a.py" 100; MsgAlreadyRunning "a.py";
                         MsgStopped "a.py"; MsgNotRunning "a.py"]
    /\ length (List.filter is_spawn es) = 1%nat
    /\ running_services w' = []
    /\ proc_running w' 100 = false.
Proof.
  exact (V4_start_start_stop_stop (unix_world stubborn permitted) "a.py" true
           eq_refl eq_refl eq_refl eq_refl).
Defined.

(** ** Parsing the configuration strings *)

Lemma rstrip_cons (c : ascii) (s : string) :
  rstrip (String c s)
  = match rstrip s with
    | EmptyString => if is_space c then EmptyString else String c EmptyString
    | r => String c r
    end.
Proof. reflexivity. Qed.

Lemma rstrip_idem (s : string) : rstrip (rstrip s) = rstrip s.
Proof.
  induction s as [|c s IH]; [reflexivity|]. rewrite rstrip_cons.
  destruct (rstrip s) as [|c' r] eqn:Hr.
  - destruct (is_space c) eqn:Hc; [reflexivity|]. cbn. rewrite Hc. reflexivity.
  - rewrite rstrip_cons, IH. reflexivity.
Qed.

Lemma lstrip_head (s : string) :
  match lstrip s with
  | EmptyString => True
  | String c _ => is_space c = false
  end.
Proof.
  induction s as [|c s IH]; [exact I|]. cbn [lstrip].
  destruct (is_space c) eqn:Hc; [exact IH | exact Hc].
Qed.

Lemma lstrip_fixed (c : ascii) (s : string) :
  is_space c = false -> lstrip (String c s) = String c s.
Proof. intros H. cbn. rewrite H. reflexivity. Qed.

Lemma rstrip_head (c : ascii) (s : string) :
  is_space c = false -> exists r, rstrip (String c s) = String c r.
Proof.
  intros H. cbn [rstrip]. destruct (rstrip s); [rewrite H|]; eauto.
Qed.

Lemma strip_idem (s : string) : strip (strip s) = strip s.
Proof.
  unfold strip. pose proof (lstrip_head s) as H.
  destruct (lstrip s) as [|c t] eqn:Hl; [reflexivity|].
  destruct (rstrip_head c t H) as [r Hr]. rewrite Hr.
  rewrite (lstrip_fixed c r H), <- Hr. apply rstrip_idem.
Qed.

Lemma lstrip_comma_free (s : string) :
  comma_free s = true -> comma_free (lstrip s) = true.
Proof.
  induction s as [|c s IH]; [reflexivity|]. cbn [lstrip].
  destruct (is_space c); [|auto]. cbn. intros H.
  apply andb_true_iff in H as [_ H]. apply IH, H.
Qed.

Lemma rstrip_comma_free (s : string) :
  comma_free s = true -> comma_free (rstrip s) = true.
Proof.
  induction s as [|c s IH]; [reflexivity|]. cbn [comma_free rstrip]. intros H.
  apply andb_true_iff in H as [Hc H]. specialize (IH H).
  destruct (rstrip s) as [|c' r].
  - destruct (is_space c); [reflexivity|]. cbn. rewrite Hc. reflexivity.
  - cbn [comma_free] in *. rewrite Hc. exact IH.
Qed.

Lemma split_comma_comma_free (s : string) :
  forallb comma_free (split_comma s) = true.
Proof.
  induction s as [|c s IH]; [reflexivity|]. cbn [split_comma].
  destruct (Ascii.eqb c ",") eqn:Hc.
  - cbn. exact IH.
  - destruct (split_comma s) as [|piece rest]; cbn in *.
    + rewrite Hc. reflexivity.
    + rewrite Hc. exact IH.
Qed.

(** X13: every name that [load_microservices] and
    [auto_start_services] read from a configuration string is not empty,
    contains no comma and has no white space at either end. *)
Theorem parse_names_clean (s : string) :
  forallb clean_name (parse_names s) = true.
Proof.
  unfold parse_names. pose proof (split_comma_comma_free s) as H.
  induction (split_comma s) as [|ms l IH]; [reflexivity|].
  cbn [forallb] in H. apply andb_true_iff in H as [Hms Hl].
  cbn [List.filter]. destruct (nonempty (strip ms)) eqn:Hn; [|apply IH, Hl].
  cbn [map forallb]. rewrite (IH Hl), andb_true_r.
  unfold clean_name. rewrite Hn, strip_idem, String.eqb_refl.
  unfold strip. rewrite rstrip_comma_free; [reflexivity|].
  apply lstrip_comma_free, Hms.
Qed.

(** Splitting a joined list. *)
Lemma split_comma_free (s : string) :
  comma_free s = true -> split_comma s = [s].
Proof.
  induction s as [|c s IH]; [reflexivity|]. cbn [split_comma comma_free]. intros H.
  apply andb_true_iff in H as [Hc H].
  apply negb_true_iff in Hc. rewrite Hc, (IH H). reflexivity.
Qed.

Lemma split_comma_app (x t : string) :
  comma_free x = true ->
  split_comma (x ++ String "," t)%string = x :: split_comma t.
Proof.
  induction x as [|c x IH]; [reflexivity|].
  change (String c x +:+ String "," t) with (String c (x +:+ String "," t)).
  cbn [split_comma comma_free]. intros H.
  apply andb_true_iff in H as [Hc H].
  apply negb_true_iff in Hc. rewrite Hc, (IH H). reflexivity.
Qed.

Lemma split_comma_join (names : list string) :
  names <> [] ->
  forallb comma_free names = true ->
  split_comma (join_comma names) = names.
Proof.
  unfold join_comma. induction names as [|x names IH]; [congruence|].
  intros _ H. cbn [forallb] in H. apply andb_true_iff in H as [Hx H].
  destruct names as [|y names].
  - cbn. apply split_comma_free, Hx.
  - cbn [String.concat]. change (x ++ "," ++ ?t)%string with (x ++ String "," t)%string.
    rewrite split_comma_app by exact Hx. f_equal. apply IH; [congruence | exact H].
Qed.

Lemma clean_name_parts (n : string) :
  clean_name n = true -> nonempty n = true /\ comma_free n = true /\ strip n = n.
Proof.
  unfold clean_name. intros H.
  apply andb_true_iff in H as [H H3]. apply andb_true_iff in H as [H1 H2].
  apply String.eqb_eq in H3. auto.
Qed.

(** X14: a list of such names, joined by commas, is read back as the
    same list in the same order. *)
Theorem parse_names_join (names : list string) :
  forallb clean_name names = true ->
  parse_names (join_comma names) = names.
Proof.
  intros H. destruct names as [|x names]; [reflexivity|].
  unfold parse_names. rewrite split_comma_join.
  - induction (x :: names) as [|n l IH]; [reflexivity|].
    cbn [forallb] in H. apply andb_true_iff in H as [Hn Hl].
    destruct (clean_name_parts n Hn) as (H1 & _ & H3).
    cbn [List.filter]. rewrite H3, H1. cbn [map]. rewrite H3, (IH Hl). reflexivity.
  - congruence.
  - clear -H. induction (x :: names) as [|n l IH]; [reflexivity|].
    cbn [forallb] in *. apply andb_true_iff in H as [Hn Hl].
    destruct (clean_name_parts n Hn) as (_ & H2 & _). rewrite H2. apply IH, Hl.
Qed.

Lemma parse_names_join_witness :
  parse_names (join_comma ["auth_service.py"; "data_service.py"])
  = ["auth_service.py"; "data_service.py"].
Proof.
  exact (parse_names_join ["auth_service.py"; "data_service.py"] eq_refl).
Defined.

(** ** [validate_microservices] *)

Lemma write_dummy_files_lookup (open_error : string -> option exn)
    (missing : list string) (fs : gmap string file_content) (path : string) :
  (write_dummy_files open_error missing fs).2 !! path = fs !! path
  \/ (In path missing
      /\ (write_dummy_files open_error missing fs).2 !! path
         = Some (DummyService path)).
Proof.
  revert fs. induction missing as [|s rest IH]; intros fs; cbn; [auto|].
  destruct (open_error s); cbn; [auto|].
  destruct (IH (<[s := DummyService s]> fs)) as [H|[Hin H]].
  - destruct (decide (s = path)) as [->|Hne].
    + right. split; [auto|]. rewrite H. apply lookup_insert_eq.
    + left. rewrite H. apply lookup_insert_ne, Hne.
  - right. auto.
Qed.

Lemma write_dummy_files_ok (open_error : string -> option exn)
    (missing : list string) (fs : gmap string file_content) :
  (write_dummy_files open_error missing fs).1 = None ->
  forall path, In path missing ->
    is_Some ((write_dummy_files open_error missing fs).2 !! path).
Proof.
  revert fs. induction missing as [|s rest IH]; intros fs Hok path Hin; [destruct Hin|].
  cbn in *. destruct (open_error s); [discriminate|].
  destruct (write_dummy_files_lookup open_error rest
              (<[s := DummyService s]> fs) path) as [H|[_ H]].
  - destruct Hin as [->|Hin]; [|apply IH; assumption].
    rewrite H, lookup_insert_eq. eauto.
  - rewrite H. eauto.
Qed.

Lemma missing_files_spec (fs : gmap string file_content) (names : list string)
    (path : string) :
  In path (missing_files fs names) <-> In path names /\ fs !! path = None.
Proof.
  unfold missing_files, path_exists. rewrite List.filter_In, negb_true_iff.
  rewrite bool_decide_eq_false, <- eq_None_not_Some. reflexivity.
Qed.

(** After a validation that returned [True], every configured
    microservice has a file. *)
Lemma validate_microservices_true_files (open_error : string -> option exn)
    (cfg : config) (fs fs' : gmap string file_content)
    (out : list validation_print) :
  validate_microservices open_error cfg fs = (true, fs', out) ->
  forall name, In name (parse_names (config_get cfg "microservices")) ->
    is_Some (fs' !! name).
Proof.
  unfold validate_microservices.
  set (names := parse_names (config_get cfg "microservices")).
  pose proof (write_dummy_files_lookup open_error (missing_files fs names) fs) as Hlook.
  pose proof (write_dummy_files_ok open_error (missing_files fs names) fs) as Hok.
  pose proof (missing_files_spec fs names) as Hspec.
  destruct (missing_files fs names) as [|m ms].
  - intros H name Hin. injection H as <- _.
    destruct (fs !! name) as [c|] eqn:Hf; [eauto|].
    destruct (proj2 (Hspec name) (conj Hin Hf)).
  - destruct (write_dummy_files open_error (m :: ms) fs) as [[e|] fs1];
      [discriminate|].
    cbn [fst snd] in *. intros H name Hin. injection H as <- _.
    destruct (fs !! name) as [c|] eqn:Hf.
    + destruct (Hlook name) as [Hl|[_ Hl]]; rewrite Hl; eauto.
    + apply (Hok eq_refl), Hspec. auto.
Qed.

(** X15: [validate_microservices] never changes a file that exists;
    the only files it creates are dummy scripts for configured
    microservices that had no file; and when it returns [True] every
    configured microservice has a file. *)
Theorem validate_microservices_creates_missing (open_error : string -> option exn)
    (cfg : config) (fs : gmap string file_content) :
  let '(ok, fs', _) := validate_microservices open_error cfg fs in
  (ok = true ->
   forall name, In name (parse_names (config_get cfg "microservices")) ->
     is_Some (fs' !! name))
  /\ (forall path c, fs !! path = Some c -> fs' !! path = Some c)
  /\ (forall path, fs !! path = None ->
        fs' !! path = None
        \/ (In path (parse_names (config_get cfg "microservices"))
            /\ fs' !! path = Some (DummyService path))).
Proof.
  unfold validate_microservices.
  set (names := parse_names (config_get cfg "microservices")).
  assert (Hlook := write_dummy_files_lookup open_error (missing_files fs names) fs).
  assert (Hok := write_dummy_files_ok open_error (missing_files fs names) fs).
  assert (Hex : forall fs' : gmap string file_content,
            (forall path, In path (missing_files fs names) -> is_Some (fs' !! path)) ->
            (forall path c, fs !! path = Some c -> fs' !! path = Some c) ->
            forall name, In name names -> is_Some (fs' !! name)).
  { intros fs' Hm Hkeep name Hin. destruct (fs !! name) as [c|] eqn:Hf.
    - rewrite (Hkeep _ _ Hf). eauto.
    - apply Hm, missing_files_spec. auto. }
  assert (Hkeep : forall path c, fs !! path = Some c ->
            (write_dummy_files open_error (missing_files fs names) fs).2 !! path
            = Some c).
  { intros path c Hf. destruct (Hlook path) as [H|[Hin _]]; [congruence|].
    apply missing_files_spec in Hin as [_ Hn]. congruence. }
  assert (Hnew : forall path, fs !! path = None ->
            (write_dummy_files open_error (missing_files fs names) fs).2 !! path = None
            \/ (In path names
                /\ (write_dummy_files open_error (missing_files fs names) fs).2 !! path
                   = Some (DummyService path))).
  { intros path Hf. destruct (Hlook path) as [H|[Hin H]]; [left; congruence|].
    right. apply missing_files_spec in Hin as [Hin _]. auto. }
  destruct (missing_files fs names) as [|m ms] eqn:Hmiss.
  - split; [|split].
    + intros _. apply Hex; [intros path []|auto].
    + auto.
    + auto.
  - destruct (write_dummy_files open_error (m :: ms) fs) as [[e|] fs'] eqn:Hw;
      cbn [fst snd] in *.
    + split; [discriminate|]. split; [exact Hkeep | exact Hnew].
    + split; [|split; [exact Hkeep | exact Hnew]].
      intros _. apply Hex; [|exact Hkeep]. apply Hok. reflexivity.
Qed.

(** X16: after a validation that returned [True], a second validation
    returns [True] as well, creates nothing and prints nothing. *)
Theorem validate_microservices_idempotent (open_error : string -> option exn)
    (cfg : config) (fs fs' : gmap string file_content)
    (out : list validation_print) :
  validate_microservices open_error cfg fs = (true, fs', out) ->
  validate_microservices open_error cfg fs' = (true, fs', []).
Proof.
  intros H.
  pose proof (validate_microservices_true_files open_error cfg fs fs' out H) as Hall.
  unfold validate_microservices.
  replace (missing_files fs' (parse_names (config_get cfg "microservices")))
    with (@nil string); [reflexivity|].
  symmetry. unfold missing_files.
  induction (parse_names (config_get cfg "microservices")) as [|n l IH];
    [reflexivity|].
  cbn [List.filter]. unfold path_exists at 1.
  rewrite bool_decide_eq_true_2 by (apply Hall; left; reflexivity).
  cbn [negb]. apply IH. intros name Hin. apply Hall. right. exact Hin.
Qed.

Lemma validate_microservices_idempotent_witness :
  validate_microservices (fun _ => None) one_service_config
    (<["a.py" := DummyService "a.py"]> ∅)
  = (true, <["a.py" := DummyService "a.py"]> ∅, []).
Proof.
  exact (validate_microservices_idempotent (fun _ => None) one_service_config ∅
           (<["a.py" := DummyService "a.py"]> ∅) [PrMissingFiles ["a.py"]]
           eq_refl).
Defined.

(** ** [ConfigLoader.run] of claude_v3.py *)

(** X17: [ConfigLoader.run] of claude_v3.py emits [finished] exactly
    once, as its last signal; it reports success only if the connection
    was made, a non-empty configuration was loaded, the validation
    succeeded and the connection was closed without error; and it calls
    [conn.close()] only after a successful validation, so the connection
    stays open when loading or validation fails. *)
Theorem V3_run_finishes_once (connected : bool)
    (rows : option (list (string * string))) (close_error : option exn)
    (open_error : string -> option exn) (fs : gmap string file_content) :
  exists before success m cfg,
    (V3_run connected rows close_error open_error fs).1
    = before ++ [Finished success m cfg]
    /\ forallb (fun e => negb (is_finished e)) before = true
    /\ (success = true ->
        connected = true
        /\ load_config_from_db rows = Some cfg /\ cfg <> ∅
        /\ (validate_microservices open_error cfg fs).1.1 = true
        /\ close_error = None)
    /\ (In ConnClose before <->
        connected = true
        /\ config_falsy (load_config_from_db rows) = false
        /\ (validate_microservices open_error
              (default ∅ (load_config_from_db rows)) fs).1.1 = true).
Proof.
  unfold V3_run. destruct connected; cbn [negb].
  2:{ exists [ProgressUpdate MsgConnecting], false, MsgConnectionFailed, ∅.
      split; [reflexivity|]. split; [reflexivity|]. split; [discriminate|].
      split; [intros [H|[]]; discriminate | intros [H _]; discriminate]. }
  destruct (config_falsy (load_config_from_db rows)) eqn:Hf.
  { exists [ProgressUpdate MsgConnecting; ProgressUpdate MsgLoading], false,
      MsgLoadFailed, ∅.
    split; [reflexivity|]. split; [reflexivity|]. split; [discriminate|].
    split; [intros [H|[H|[]]]; discriminate | intros (_ & H & _); discriminate]. }
  destruct (load_config_from_db rows) as [cfg|] eqn:Hl; [|discriminate].
  change (default ∅ (Some cfg)) with cfg.
  cbn [config_falsy] in Hf. apply bool_decide_eq_false in Hf.
  destruct (validate_microservices open_error cfg fs) as [[ok fs'] out] eqn:Hv.
  destruct ok; cbn [negb fst snd].
  - destruct close_error as [e|].
    + eexists [_; _; _; _; _], false, (MsgError e), ∅.
      split; [reflexivity|]. split; [reflexivity|]. split; [discriminate|].
      split; intros _; cbn; auto 10.
    + eexists [_; _; _; _; _], true, MsgSetupCompleted, cfg.
      split; [reflexivity|]. split; [reflexivity|].
      split; [intros _; rewrite Hv; repeat split; auto|].
      split; intros _; cbn; auto 10.
  - eexists [_; _; _], false, MsgFilesMissing, cfg.
    split; [reflexivity|]. split; [reflexivity|]. split; [discriminate|].
    split; [intros [H|[H|[H|[]]]]; discriminate | intros (_ & _ & H); discriminate].
Qed.

(** ** Start-up *)

Lemma run_init_bound (globals builtins : list string) (st : init_stmt)
    (rest : list init_stmt) (attrs : list string) :
  forallb (fun n => mem_string n globals || mem_string n builtins) (reads st) = true ->
  run_init globals builtins (st :: rest) attrs
  = run_init globals builtins rest
      (match sets st with Some a => attrs ++ [a] | None => attrs end).
Proof.
  intros H. cbn [run_init].
  replace (find _ (reads st)) with (@None string); [reflexivity|].
  symmetry. induction (reads st) as [|n l IH]; [reflexivity|].
  cbn [forallb] in H. apply andb_true_iff in H as [Hn Hl].
  cbn [find]. rewrite Hn. cbn [negb]. apply IH, Hl.
Qed.

(** X18: in claude_v4.py the loader cannot be constructed: for any set
    of builtins that has [super] and no name [Falsef] (Python has none),
    [ConfigLoader.__init__] raises [NameError] at
    [self.should_stop = Falsef], with only [config_data] set; so [main]
    ends with this exception right after its signal set-up, before the
    splash screen is shown or the event loop runs, with no service
    started and no exit hook registered.  In claude_v3.py the same
    constructor completes and [main] reaches the event loop. *)
Theorem V4_main_raises_NameError (builtins : list string) (w : world) :
  mem_string "super" builtins = true ->
  mem_string "Falsef" builtins = false ->
  V4_ConfigLoader_init builtins = (["config_data"], Some (NameError "Falsef"))
  /\ (exists w',
        V4_main builtins w = Ok (Uncaught (NameError "Falsef")) w'
        /\ V4.main_install_handlers w = Ok tt w'
        /\ running_services w' = running_services w
        /\ atexit_registered w' = atexit_registered w
        /\ trace w' = trace w)
  /\ V3_ConfigLoader_init builtins
     = (["config_data"; "default_connection"], None)
  /\ V3_main builtins w = Ok EventLoop w.
Proof.
  intros Hsuper HF.
  assert (H4 : V4_ConfigLoader_init builtins
               = (["config_data"], Some (NameError "Falsef"))).
  { unfold V4_ConfigLoader_init.
    rewrite run_init_bound
      by (cbn [reads forallb]; rewrite Hsuper, orb_true_r; reflexivity).
    rewrite run_init_bound by reflexivity.
    cbn [run_init reads sets find app].
    replace (mem_string "Falsef" V4_globals) with false by reflexivity.
    rewrite HF. reflexivity. }
  assert (H3 : V3_ConfigLoader_init builtins
               = (["config_data"; "default_connection"], None)).
  { unfold V3_ConfigLoader_init.
    rewrite run_init_bound
      by (cbn [reads forallb]; rewrite Hsuper, orb_true_r; reflexivity).
    reflexivity. }
  split; [exact H4|]. split.
  - eexists. unfold V4_main. rewrite bind_run, H4.
    split; [reflexivity|]. split; [reflexivity|]. world_simpl. auto.
  - split; [exact H3|]. unfold V3_main. rewrite H3. reflexivity.
Qed.

Lemma V4_main_raises_NameError_witness :
  let builtins := ["super"; "True"; "False"; "None"; "print"; "hasattr";
                   "Exception"; "KeyboardInterrupt"; "range"; "str"] in
  let w := unix_world polite permitted in
  V4_ConfigLoader_init builtins = (["config_data"], Some (NameError "Falsef"))
  /\ (exists w',
        V4_main builtins w = Ok (Uncaught (NameError "Falsef")) w'
        /\ V4.main_install_handlers w = Ok tt w'
        /\ running_services w' = running_services w
        /\ atexit_registered w' = atexit_registered w
        /\ trace w' = trace w)
  /\ V3_ConfigLoader_init builtins
     = (["config_data"; "default_connection"], None)
  /\ V3_main builtins w = Ok EventLoop w.
Proof.
  exact (V4_main_raises_NameError
           ["super"; "True"; "False"; "None"; "print"; "hasattr";
            "Exception"; "KeyboardInterrupt"; "range"; "str"]
           (unix_world polite permitted) eq_refl eq_refl).
Defined.

(** ** The runs of [main] *)

Lemma V4_ConfigLoader_init_fails (builtins : list string) :
  mem_string "super" builtins = true ->
  mem_string "Falsef" builtins = false ->
  V4_ConfigLoader_init builtins = (["config_data"], Some (NameError "Falsef")).
Proof.
  intros Hsuper HF. unfold V4_ConfigLoader_init.
  rewrite run_init_bound
    by (cbn [reads forallb]; rewrite Hsuper, orb_true_r; reflexivity).
  rewrite run_init_bound by reflexivity.
  cbn [run_init reads sets find app].
  replace (mem_string "Falsef" V4_globals) with false by reflexivity.
  rewrite HF. reflexivity.
Qed.

(** X10: in claude_v4.py as it is written, no run of [main] performs a
    teardown or starts a service.  From the start of the program (no
    window known to the module, no exit hook registered): without a
    signal [main] ends with [NameError] right after its signal set-up;
    SIGINT after the set-up ends the process at once; SIGTERM after the
    set-up makes [signal_handler] print its line and end the process,
    finding neither a window nor an exit hook.  In each case the registry
    and the process table are as they were when [main] began, and nothing
    else is added to the trace. *)
Theorem V4_main_never_tears_down (builtins : list string) (w : world) :
  mem_string "super" builtins = true ->
  mem_string "Falsef" builtins = false ->
  main_window_instance w = false ->
  atexit_registered w = false ->
  exists w1,
    V4.main_install_handlers w = Ok tt w1
    /\ running_services w1 = running_services w
    /\ procs w1 = procs w
    /\ is_closing w1 = is_closing w
    /\ trace w1 = trace w
    /\ V4_main builtins w = Ok (Uncaught (NameError "Falsef")) w1
    /\ V4.receive_signal BeforeEventLoop SIGINT w1
       = Ok Killed (set_host_alive false w1)
    /\ V4.receive_signal BeforeEventLoop SIGTERM w1
       = Ok HandlerRan
           (set_host_alive false
              (add_event (EvPrint (PrReceivedSignal SIGTERM)) w1)).
Proof.
  intros Hsuper HF Hi Hh. eexists. split; [reflexivity|].
  world_simpl. repeat (split; [reflexivity|]). split; [|split].
  - unfold V4_main. rewrite bind_run.
    rewrite (V4_ConfigLoader_init_fails builtins Hsuper HF). reflexivity.
  - reflexivity.
  - unfold V4.receive_signal. rewrite bind_run. unfold gets at 1.
    cbn [sigterm_disp set_disp]. rewrite bind_run. unfold V4.signal_handler.
    rewrite bind_run. unfold print at 1, emit at 1, modify at 1.
    rewrite bind_run. unfold gets at 1. world_simpl. rewrite Hi.
    rewrite bind_run. unfold ret at 1. unfold V4.sys_exit.
    rewrite bind_run. unfold gets at 1. world_simpl. rewrite Hh. reflexivity.
Qed.

Lemma V4_main_never_tears_down_witness :
  let builtins := ["super"; "True"; "False"; "None"; "print"; "hasattr";
                   "Exception"; "KeyboardInterrupt"; "range"; "str"] in
  let w := unix_world polite permitted in
  exists w1,
    V4.main_install_handlers w = Ok tt w1
    /\ running_services w1 = running_services w
    /\ procs w1 = procs w
    /\ is_closing w1 = is_closing w
    /\ trace w1 = trace w
    /\ V4_main builtins w = Ok (Uncaught (NameError "Falsef")) w1
    /\ V4.receive_signal BeforeEventLoop SIGINT w1
       = Ok Killed (set_host_alive false w1)
    /\ V4.receive_signal BeforeEventLoop SIGTERM w1
       = Ok HandlerRan
           (set_host_alive false
              (add_event (EvPrint (PrReceivedSignal SIGTERM)) w1)).
Proof.
  exact (V4_main_never_tears_down
           ["super"; "True"; "False"; "None"; "print"; "hasattr";
            "Exception"; "KeyboardInterrupt"; "range"; "str"]
           (unix_world polite permitted) eq_refl eq_refl eq_refl eq_refl).
Defined.
